(** * go-rplidar-sdk-handler: measures, the averaging engine and the handler

    A shallow embedding of [types.go], [utils.go], [constants.go] and
    [errors.go].  Go's [int] is a 64-bit two's-complement integer carried
    by [Z] with its wrap-around written out, [float64] is the kernel's
    binary64, [*[360]*Measure] is a list of optional measures, a
    [map[CardinalDirection]float64] is a [gmap], and a call that may
    panic returns an [outcome]. *)

From Stdlib Require Import ZArith Zquot List String Ascii Lia Bool DecimalString.
From Stdlib Require Import Floats.PrimFloat Floats.FloatOps Floats.SpecFloat.
From stdpp Require Import base gmap list strings.

Local Open Scope Z_scope.

(* ===================================================================== *)
(** ** Go's [int] *)
(* ===================================================================== *)

Module GoInt.

Definition min_int : Z := - 2 ^ 63.
Definition max_int : Z := 2 ^ 63 - 1.

Definition in_range (z : Z) : bool := (min_int <=? z) && (z <=? max_int).

(** Two's-complement wrap-around of a mathematical result. *)
Definition wrap (z : Z) : Z := (z + 2 ^ 63) mod 2 ^ 64 - 2 ^ 63.

Definition add (a b : Z) : Z := wrap (a + b).
Definition sub (a b : Z) : Z := wrap (a - b).
(** [a / b] and [a % b] truncate towards zero. *)
Definition quot (a b : Z) : Z := wrap (Z.quot a b).
Definition rem (a b : Z) : Z := Z.rem a b.

End GoInt.

(* ===================================================================== *)
(** ** Go's [float64] *)
(* ===================================================================== *)

Module Float64.

Definition t : Set := float.

Definition of_spec (x : spec_float) : t := SF2Prim x.

(** [float64(i)]: the integer rounded to the nearest binary64. *)
Definition of_int (i : Z) : t :=
  of_spec (binary_normalize prec emax i 0 false).

(** The integer [n] carrying the sign bit [neg]; a zero keeps its sign. *)
Definition of_magnitude (neg : bool) (n : Z) : t :=
  of_spec (binary_normalize prec emax (if neg then - n else n) 0 neg).

(** [m * 2^e] cut to its integral part, and whether nothing was cut. *)
Definition integral (m : positive) (e : Z) : Z * bool :=
  if 0 <=? e then (Z.shiftl (Z.pos m) e, true)
  else let q := Z.shiftr (Z.pos m) (- e) in
       (q, Z.shiftl q (- e) =? Z.pos m).

(** [math.Floor]. *)
Definition Floor (x : t) : t :=
  match Prim2SF x with
  | S754_finite s m e =>
      if 0 <=? e then x
      else let '(q, exact) := integral m e in
           if s then of_magnitude true (if exact then q else q + 1)
           else of_magnitude false q
  | _ => x
  end.

(** [math.Ceil]. *)
Definition Ceil (x : t) : t :=
  match Prim2SF x with
  | S754_finite s m e =>
      if 0 <=? e then x
      else let '(q, exact) := integral m e in
           if s then of_magnitude true q
           else of_magnitude false (if exact then q else q + 1)
  | _ => x
  end.

(** [int(x)]: the fraction is discarded.  A value that does not fit
    (also an infinity or a NaN) is implementation-defined in Go; amd64's
    conversion yields the least [int]. *)
Definition to_int (x : t) : Z :=
  match Prim2SF x with
  | S754_zero _ => 0
  | S754_finite s m e =>
      let a := fst (integral m e) in
      let v := if s then - a else a in
      if GoInt.in_range v then v else GoInt.min_int
  | _ => GoInt.min_int
  end.

End Float64.

(* ===================================================================== *)
(** ** Panics and blocking *)
(* ===================================================================== *)

Inductive panic : Set :=
| IndexOutOfRange (index length : Z).

(** What a call does: it returns, it panics, or it waits on a mutex that
    is held. *)
Inductive outcome (A : Type) : Type :=
| Returns (a : A)
| Panics (p : panic)
| Blocks.

Arguments Returns {A} a.
Arguments Panics {A} p.
Arguments Blocks {A}.

#[global] Instance outcome_ret : MRet outcome := fun A a => Returns a.

#[global] Instance outcome_bind : MBind outcome := fun A B k c =>
  match c with
  | Returns a => k a
  | Panics p => Panics p
  | Blocks => Blocks
  end.

(** A [for _, x := range xs] loop threading the loop's variables. *)
Fixpoint for_range {A S} (xs : list A) (body : S -> A -> outcome S) (s : S)
  : outcome S :=
  match xs with
  | [] => Returns s
  | x :: xs' => s' ← body s x; for_range xs' body s'
  end.

(** The values [lo, lo+1, ...] below [hi]: the iterations of
    [for i := lo; i < hi; i++]. *)
Definition upto (lo hi : Z) : list Z :=
  map (fun k => lo + Z.of_nat k) (seq 0 (Z.to_nat (hi - lo))).

(** The iterations of [for i := lo; i <= hi; i++]. *)
Definition through (lo hi : Z) : list Z := upto lo (hi + 1).

(* ===================================================================== *)
(** ** errors.go *)
(* ===================================================================== *)

(** The package's sentinel errors, and the errors built with
    [fmt.Errorf] where they are returned; [ErrExternal] is an error of a
    collaborator (the logger, [os], [os/exec], [bufio], a context's
    deadline), and [ErrWrap] is [fmt.Errorf] with the verb [%w]. *)
Inductive error : Set :=
| ErrNilHandler
| ErrNilLineHandler
| ErrHandlerAlreadyRunning
| ErrEmptyUltraSimplePath
| ErrInvalidMaxDistanceLimit
| ErrAngleWidthMustBeOdd
| ErrAngleWidthTooSmall
| ErrAngleWidthTooLarge
| ErrAngleWithoutSyncBit (angle : float)
| ErrAngleWithSyncBit (angle : float)
| ErrExpectedFields (got : Z)
| ErrParseAngle
| ErrParseDistance
| ErrParseQuality
| ErrExecutableNotFound (path : string)
| ErrContextCanceled
| ErrExternal (msg : string)
| ErrWrap (msg : string) (cause : error).

(** [errors.Is(err, context.Canceled)]. *)
Fixpoint is_canceled (err : error) : bool :=
  match err with
  | ErrContextCanceled => true
  | ErrWrap _ cause => is_canceled cause
  | _ => false
  end.

(* ===================================================================== *)
(** ** constants.go *)
(* ===================================================================== *)

Definition SyncBitCharacter : string := "S".
Definition AttributesSeparator : string := ",".
Definition IgnoreFirstStdoutMessages : Z := 6.
Definition AngleIndex : nat := 0.
Definition DistanceIndex : nat := 1.
Definition QualityIndex : nat := 2.

(* ===================================================================== *)
(** ** Measure *)
(* ===================================================================== *)

Record Measure : Set := mkMeasure {
  angle : float;
  distance : float;
  quality : Z;
  hasSyncBit : bool
}.

Definition GetAngle (m : Measure) : float := angle m.
Definition GetDistance (m : Measure) : float := distance m.
Definition GetQuality (m : Measure) : Z := quality m.
Definition IsRotationCompleted (m : Measure) : bool := hasSyncBit m.

Definition validateAngle (angle : float) (hasSyncBit : bool) : option error :=
  if negb hasSyncBit then
    if (angle <? 0)%float || (360 <=? angle)%float
    then Some (ErrAngleWithoutSyncBit angle)
    else None
  else if (angle <? 0)%float then Some (ErrAngleWithSyncBit angle)
  else None.

Definition NewMeasure (angle distance : float) (quality : Z)
    (hasSyncBit isUpsideDown : bool) (angleAdjustment : float)
  : option Measure * option error :=
  match validateAngle angle hasSyncBit with
  | Some err => (None, Some err)
  | None =>
      let angle := if hasSyncBit then (angle - 360)%float else angle in
      let angle := if isUpsideDown then (360 - angle)%float else angle in
      let angle := if negb (angleAdjustment =? 0)%float
                   then (angle + angleAdjustment)%float else angle in
      let angle := if (angle <? 0)%float then (angle + 360)%float
                   else if (360 <=? angle)%float then (angle - 360)%float
                   else angle in
      (Some (mkMeasure angle distance quality hasSyncBit), None)
  end.

(* ===================================================================== *)
(** ** Go's [strings.Fields] and [fmt.Sprintf] verbs *)
(* ===================================================================== *)

Module GoStrings.

Definition byte (c : ascii) : N := N_of_ascii c.

(** ['\t'], ['\n'], ['\v'], ['\f'], ['\r'] and [' ']. *)
Definition is_ascii_space (c : ascii) : bool :=
  ((9 <=? byte c) && (byte c <=? 13) || (byte c =? 32))%N.

(** The third byte of a three-byte white-space rune led by [b0 b1]:
    U+1680, U+2000..U+200A, U+2028, U+2029, U+202F, U+205F, U+3000. *)
Definition is_space3 (b0 b1 b2 : N) : bool :=
  ((b0 =? 0xE1) && (b1 =? 0x9A) && (b2 =? 0x80)
   || (b0 =? 0xE2) && (b1 =? 0x80)
      && ((0x80 <=? b2) && (b2 <=? 0x8A)
          || (b2 =? 0xA8) || (b2 =? 0xA9) || (b2 =? 0xAF))
   || (b0 =? 0xE2) && (b1 =? 0x81) && (b2 =? 0x9F)
   || (b0 =? 0xE3) && (b1 =? 0x80) && (b2 =? 0x80))%N.

(** The number of bytes of the white-space rune ([unicode.IsSpace]) that
    starts the UTF-8 string [s]; [0] when it starts with none. *)
Definition space_width (s : string) : nat :=
  match s with
  | EmptyString => 0%nat
  | String c rest =>
      if is_ascii_space c then 1%nat
      else if (byte c <? 0x80)%N then 0%nat
      else match rest with
           | EmptyString => 0%nat
           | String c1 rest1 =>
               if ((byte c =? 0xC2)
                   && ((byte c1 =? 0x85) || (byte c1 =? 0xA0)))%N
               then 2%nat
               else match rest1 with
                    | EmptyString => 0%nat
                    | String c2 _ =>
                        if is_space3 (byte c) (byte c1) (byte c2)
                        then 3%nat else 0%nat
                    end
           end
  end.

Definition flush (cur : string) (acc : list string) : list string :=
  match cur with
  | EmptyString => acc
  | _ => cur :: acc
  end.

(** The scan of [strings.Fields]: [skip] bytes of a white-space rune
    are still to be passed, [cur] is the field being read and [acc] the
    fields read, last first. *)
Fixpoint fields_from (s : string) (skip : nat) (cur : string)
    (acc : list string) : list string :=
  match s with
  | EmptyString => rev (flush cur acc)
  | String c rest =>
      match skip with
      | S k => fields_from rest k cur acc
      | O =>
          match space_width s with
          | O => fields_from rest 0 (cur ++ String c EmptyString) acc
          | S k => fields_from rest k EmptyString (flush cur acc)
          end
      end
  end.

Definition Fields (s : string) : list string :=
  fields_from s 0 EmptyString [].

(** [s] without its leading white space; [skip] as in [fields_from]. *)
Fixpoint trim_left (s : string) (skip : nat) : string :=
  match s with
  | EmptyString => EmptyString
  | String c rest =>
      match skip with
      | S k => trim_left rest k
      | O =>
          match space_width s with
          | O => s
          | S k => trim_left rest k
          end
      end
  end.

(** [s] without its trailing white space; [pending] is the white space
    passed since the last byte that was kept. *)
Fixpoint trim_right (s : string) (skip : nat) (pending : string) : string :=
  match s with
  | EmptyString => EmptyString
  | String c rest =>
      match skip with
      | S k => trim_right rest k (pending ++ String c EmptyString)
      | O =>
          match space_width s with
          | O => pending ++ String c (trim_right rest 0 EmptyString)
          | S k => trim_right rest k (pending ++ String c EmptyString)
          end
      end
  end.

(** [strings.TrimSpace]. *)
Definition TrimSpace (s : string) : string :=
  trim_right (trim_left s 0) 0 EmptyString.

(** Decimal digits. *)
Definition digit (d : Z) : ascii :=
  nth (Z.to_nat d) ["0"; "1"; "2"; "3"; "4"; "5"; "6"; "7"; "8"; "9"]%char
      "0"%char.

Definition decimal (n : Z) : string :=
  NilEmpty.string_of_uint (N.to_uint (Z.to_N n)).

(** The [n] low decimal digits of [v], written before [acc]. *)
Fixpoint fixed (n : nat) (v : Z) (acc : string) : string :=
  match n with
  | O => acc
  | S n' => fixed n' (v / 10) (String (digit (v mod 10)) acc)
  end.

Definition sign (neg : bool) : string := if neg then "-" else "".

(** [num / den] rounded to the nearest integer, a tie to the even one. *)
Definition round_half_even (num den : Z) : Z :=
  let q := num / den in
  match 2 * (num mod den) ?= den with
  | Lt => q
  | Gt => q + 1
  | Eq => if Z.even q then q else q + 1
  end.

(** [m * 2^e] in millionths. *)
Definition millionths (m : positive) (e : Z) : Z :=
  if 0 <=? e then Z.pos m * 2 ^ e * 10 ^ 6
  else round_half_even (Z.pos m * 10 ^ 6) (2 ^ (- e)).

(** The verb [%f]: six digits after the point. *)
Definition FormatF (x : float) : string :=
  match Prim2SF x with
  | S754_nan => "NaN"
  | S754_infinity s => if s then "-Inf" else "+Inf"
  | S754_zero s => sign s ++ "0.000000"
  | S754_finite s m e =>
      let v := millionths m e in
      sign s ++ decimal (v / 10 ^ 6) ++ "." ++ fixed 6 (v mod 10 ^ 6) ""
  end.

(** The verb [%d]. *)
Definition FormatD (i : Z) : string :=
  if i <? 0 then "-" ++ decimal (- i) else decimal i.

End GoStrings.

(** [Measure.String]: [fmt.Sprintf("%f%s%f%s%d", ...)]. *)
Definition String_ (m : Measure) : string :=
  GoStrings.FormatF (angle m) ++ AttributesSeparator ++
  GoStrings.FormatF (distance m) ++ AttributesSeparator ++
  GoStrings.FormatD (quality m).

(* ===================================================================== *)
(** ** Reading a measure from a line *)
(* ===================================================================== *)

Section Reading.

(** [gostringsconvert.ToFloat64] and [gostringsconvert.ToInt] of the
    go-strings module: the value read, or [None] for an error. *)
Variable ToFloat64 : string -> option float.
Variable ToInt : string -> option Z.

Definition NewMeasureFromString (measureStr : string)
    (isUpsideDown : bool) (angleAdjustment : float)
  : option Measure * option error :=
  let fields := GoStrings.Fields measureStr in
  let '(hasSyncBit, fields) :=
    if (length fields =? 4)%nat
       && bool_decide (fields !! 0%nat = Some SyncBitCharacter)
    then (true, tail fields) else (false, fields) in
  match fields with
  | [fAngle; fDistance; fQuality] =>
      match ToFloat64 fAngle with
      | None => (None, Some ErrParseAngle)
      | Some angle =>
          match ToFloat64 fDistance with
          | None => (None, Some ErrParseDistance)
          | Some distance =>
              match ToInt fQuality with
              | None => (None, Some ErrParseQuality)
              | Some quality =>
                  NewMeasure angle distance quality hasSyncBit
                    isUpsideDown angleAdjustment
              end
          end
      end
  | _ => (None, Some (ErrExpectedFields (Z.of_nat (length fields))))
  end.

End Reading.

(** A reader of the decimal forms the external tool prints,
    [[+-]digits[.digits]], for running the definitions above on concrete
    lines. *)
Module DecimalReader.

Definition digit_of (c : ascii) : option Z :=
  let n := N_of_ascii c in
  if ((48 <=? n) && (n <=? 57))%N then Some (Z.of_N n - 48) else None.

(** The digits of [s] read after [acc]; [None] for another byte. *)
Fixpoint digits (s : string) (acc : Z) : option Z :=
  match s with
  | EmptyString => Some acc
  | String c rest =>
      match digit_of c with
      | Some d => digits rest (10 * acc + d)
      | None => None
      end
  end.

Definition unsigned (s : string) : option Z :=
  match s with
  | EmptyString => None
  | _ => digits s 0
  end.

Definition signed (s : string) : bool * string :=
  match s with
  | String "-"%char rest => (true, rest)
  | String "+"%char rest => (false, rest)
  | _ => (false, s)
  end.

(** [s] cut at its first point. *)
Fixpoint split_point (s : string) : string * option string :=
  match s with
  | EmptyString => (EmptyString, None)
  | String "."%char rest => (EmptyString, Some rest)
  | String c rest =>
      let '(a, b) := split_point rest in (String c a, b)
  end.

(** [num / 10^k] rounded to the nearest binary64: the quotient is taken
    with 64 bits to spare and the rest of the division kept as a last
    sticky bit. *)
Definition ratio (neg : bool) (num : Z) (k : Z) : float :=
  let den := 10 ^ k in
  let s := 64 + Z.log2 den + 1 in
  let q := (num * 2 ^ s) / den in
  let sticky := if (num * 2 ^ s) mod den =? 0 then 0 else 1 in
  let m := 2 * q + sticky in
  SF2Prim (binary_normalize prec emax (if neg then - m else m)
             (- (s + 1)) neg).

Definition ToFloat64 (s : string) : option float :=
  let '(neg, body) := signed s in
  let '(whole, frac) := split_point body in
  match frac with
  | None => w ← unsigned whole; Some (ratio neg w 0)
  | Some f =>
      match digits (whole ++ f) 0 with
      | Some n =>
          if (String.length whole + String.length f =? 0)%nat then None
          else Some (ratio neg n (Z.of_nat (String.length f)))
      | None => None
      end
  end.

Definition ToInt (s : string) : option Z :=
  let '(neg, body) := signed s in
  w ← unsigned body;
  let v := if neg then - w else w in
  if GoInt.in_range v then Some v else None.

End DecimalReader.

(* ===================================================================== *)
(** ** Cardinal directions *)
(* ===================================================================== *)

(** [CardinalDirection] is a [uint8]; the constants count up from
    [CardinalDirectionNil]. *)
Abbreviation CardinalDirection := N.

Definition CardinalDirectionNil : CardinalDirection := 0%N.
Definition CardinalDirectionNorth : CardinalDirection := 1%N.
Definition CardinalDirectionWest : CardinalDirection := 2%N.
Definition CardinalDirectionEast : CardinalDirection := 3%N.
Definition CardinalDirectionSouth : CardinalDirection := 4%N.
Definition CardinalDirectionNorthwest : CardinalDirection := 5%N.
Definition CardinalDirectionNortheast : CardinalDirection := 6%N.
Definition CardinalDirectionSouthwest : CardinalDirection := 7%N.
Definition CardinalDirectionSoutheast : CardinalDirection := 8%N.
Definition CardinalDirectionWestNorthwest : CardinalDirection := 9%N.
Definition CardinalDirectionNorthNorthwest : CardinalDirection := 10%N.
Definition CardinalDirectionEastNortheast : CardinalDirection := 11%N.
Definition CardinalDirectionNorthNortheast : CardinalDirection := 12%N.
Definition CardinalDirectionWestSouthwest : CardinalDirection := 13%N.
Definition CardinalDirectionEastSoutheast : CardinalDirection := 14%N.
Definition CardinalDirectionSouthSouthwest : CardinalDirection := 15%N.
Definition CardinalDirectionSouthSoutheast : CardinalDirection := 16%N.

Definition CardinalDirectionAngles : gmap N float :=
  list_to_map [
    (CardinalDirectionNorth, 0.0%float);
    (CardinalDirectionNorthNortheast, 22.5%float);
    (CardinalDirectionNortheast, 45.0%float);
    (CardinalDirectionEastNortheast, 67.5%float);
    (CardinalDirectionEast, 90.0%float);
    (CardinalDirectionEastSoutheast, 112.5%float);
    (CardinalDirectionSoutheast, 135.0%float);
    (CardinalDirectionSouthSoutheast, 157.5%float);
    (CardinalDirectionSouth, 180.0%float);
    (CardinalDirectionSouthSouthwest, 202.5%float);
    (CardinalDirectionSouthwest, 225.0%float);
    (CardinalDirectionWestSouthwest, 247.5%float);
    (CardinalDirectionWest, 270.0%float);
    (CardinalDirectionWestNorthwest, 292.5%float);
    (CardinalDirectionNorthwest, 315.0%float);
    (CardinalDirectionNorthNorthwest, 337.5%float)
  ].

Definition CardinalDirections : list CardinalDirection := [
  CardinalDirectionNorth;
  CardinalDirectionWest;
  CardinalDirectionEast;
  CardinalDirectionSouth;
  CardinalDirectionNorthwest;
  CardinalDirectionNortheast;
  CardinalDirectionSouthwest;
  CardinalDirectionSoutheast;
  CardinalDirectionWestNorthwest;
  CardinalDirectionNorthNorthwest;
  CardinalDirectionEastNortheast;
  CardinalDirectionNorthNortheast;
  CardinalDirectionWestSouthwest;
  CardinalDirectionEastSoutheast;
  CardinalDirectionSouthSouthwest;
  CardinalDirectionSouthSoutheast
].

(** [CardinalDirection.Angle]: a key the map lacks reads as [0]. *)
Definition Angle (r : CardinalDirection) : float :=
  default 0%float (CardinalDirectionAngles !! r).

(* ===================================================================== *)
(** ** utils.go: the averaging engine *)
(* ===================================================================== *)

(** The buffer [*[360]*Measure]: a slot is [None] for a nil pointer.  The
    pointer to the array itself is never nil where the handler calls the
    engine ([GetMeasures] returns the address of a copy). *)
Abbreviation Measures := (list (option Measure)).

(** [measures[i]]: an index out of the array panics. *)
Definition index (measures : Measures) (i : Z) : outcome (option Measure) :=
  if (0 <=? i) && (i <? Z.of_nat (length measures)) then
    match measures !! Z.to_nat i with
    | Some slot => Returns slot
    | None => Panics (IndexOutOfRange i (Z.of_nat (length measures)))
    end
  else Panics (IndexOutOfRange i (Z.of_nat (length measures))).

(** The slice [angles] that [GetAverageDistanceFromAngle] builds for a
    width above one. *)
Definition window_angles (middleAngle width : Z) : list Z :=
  let widthPerSide := GoInt.quot (GoInt.sub width 1) 2 in
  let leftAngle := GoInt.sub middleAngle widthPerSide in
  let rightAngle := GoInt.add middleAngle widthPerSide in
  (if leftAngle <? 0 then upto (GoInt.add 360 leftAngle) 360 else [])
  ++ (if 360 <=? rightAngle then through 0 (GoInt.sub rightAngle 360) else [])
  ++ through (Z.max leftAngle 0) (Z.min 360 rightAngle).

(** One turn of the averaging loop over [(totalDistance, count)]. *)
Definition accumulate (measures : Measures) (acc : float * Z) (angle : Z)
  : outcome (float * Z) :=
  measure ← index measures angle;
  match measure with
  | None => Returns acc
  | Some m =>
      if (GetDistance m =? 0)%float || (GetQuality m =? 0) then Returns acc
      else Returns ((acc.1 + GetDistance m)%float, GoInt.add acc.2 1)
  end.

Definition GetAverageDistanceFromAngle (measures : Measures)
    (middleAngle width : Z) : outcome (float * option error) :=
  if GoInt.rem width 2 =? 0 then Returns (0%float, Some ErrAngleWidthMustBeOdd)
  else if width <? 1 then Returns (0%float, Some ErrAngleWidthTooSmall)
  else if 360 <=? width then Returns (0%float, Some ErrAngleWidthTooLarge)
  else if width =? 1 then
    measure ← index measures middleAngle;
    match measure with
    | None => Returns (0.0%float, None)
    | Some m => Returns (GetDistance m, None)
    end
  else
    '(totalDistance, count) ←
      for_range (window_angles middleAngle width) (accumulate measures)
        (0%float, 0);
    Returns ((totalDistance / Float64.of_int count)%float, None).

Definition GetAverageDistanceFromDirection (measures : Measures)
    (width : Z) (direction : CardinalDirection)
  : outcome (float * option error) :=
  let directionAngle := Angle direction in
  let directionAngle :=
    if (180 <=? directionAngle)%float then Float64.Ceil directionAngle
    else Float64.Floor directionAngle in
  GetAverageDistanceFromAngle measures (Float64.to_int directionAngle) width.

(** The loop of [GetAverageDistancesFromDirections] from the map
    [avgDistances]; the map returned is [None] for nil. *)
Fixpoint average_directions (measures : Measures) (width : Z)
    (directions : list CardinalDirection) (avgDistances : gmap N float)
  : outcome (option (gmap N float) * option error) :=
  match directions with
  | [] => Returns (Some avgDistances, None)
  | direction :: rest =>
      r ← GetAverageDistanceFromDirection measures width direction;
      match r.2 with
      | Some err => Returns (None, Some err)
      | None =>
          average_directions measures width rest
            (<[direction := r.1]> avgDistances)
      end
  end.

Definition GetAverageDistancesFromDirections (measures : Measures)
    (width : Z) (directions : list CardinalDirection)
  : outcome (option (gmap N float) * option error) :=
  average_directions measures width directions ∅.

(** Modelled from the spec: [GetAverageDistanceFromAllDirections], which
    [DefaultHandler.GetAverageDistancesFromAllDirections] calls and no
    source file defines; the spec has it as the "convenience form
    iterating the full 16-entry direction table". *)
Definition GetAverageDistanceFromAllDirections (measures : Measures)
    (width : Z) : outcome (option (gmap N float) * option error) :=
  GetAverageDistancesFromDirections measures width CardinalDirections.

(* ===================================================================== *)
(** ** DefaultHandler *)
(* ===================================================================== *)

(** The handler's fields.  A mutex is [true] while it is held; the
    [logger] is a collaborator and is met through [World] below, and
    [handlerLoggerProducer] holds the tag of the producer in use. *)
Record DefaultHandler : Set := mkHandler {
  handlerMutex : bool;
  measuresMutex : bool;
  isRunning : bool;
  handlerLoggerProducer : option string;
  baudRate : Z;
  isUpsideDown : bool;
  angleAdjustment : float;
  measures : Measures;
  stdoutLinesRead : Z;
  ultraSimplePath : string;
  maxDistanceLimit : float;
  port : string
}.

Definition set_handlerMutex (v : bool) (h : DefaultHandler) :=
  mkHandler v (measuresMutex h) (isRunning h) (handlerLoggerProducer h)
    (baudRate h) (isUpsideDown h) (angleAdjustment h) (measures h)
    (stdoutLinesRead h) (ultraSimplePath h) (maxDistanceLimit h) (port h).

Definition set_measuresMutex (v : bool) (h : DefaultHandler) :=
  mkHandler (handlerMutex h) v (isRunning h) (handlerLoggerProducer h)
    (baudRate h) (isUpsideDown h) (angleAdjustment h) (measures h)
    (stdoutLinesRead h) (ultraSimplePath h) (maxDistanceLimit h) (port h).

Definition set_isRunning (v : bool) (h : DefaultHandler) :=
  mkHandler (handlerMutex h) (measuresMutex h) v (handlerLoggerProducer h)
    (baudRate h) (isUpsideDown h) (angleAdjustment h) (measures h)
    (stdoutLinesRead h) (ultraSimplePath h) (maxDistanceLimit h) (port h).

Definition set_handlerLoggerProducer (v : option string) (h : DefaultHandler) :=
  mkHandler (handlerMutex h) (measuresMutex h) (isRunning h) v
    (baudRate h) (isUpsideDown h) (angleAdjustment h) (measures h)
    (stdoutLinesRead h) (ultraSimplePath h) (maxDistanceLimit h) (port h).

Definition set_measures (v : Measures) (h : DefaultHandler) :=
  mkHandler (handlerMutex h) (measuresMutex h) (isRunning h)
    (handlerLoggerProducer h) (baudRate h) (isUpsideDown h)
    (angleAdjustment h) v (stdoutLinesRead h) (ultraSimplePath h)
    (maxDistanceLimit h) (port h).

Definition set_stdoutLinesRead (v : Z) (h : DefaultHandler) :=
  mkHandler (handlerMutex h) (measuresMutex h) (isRunning h)
    (handlerLoggerProducer h) (baudRate h) (isUpsideDown h)
    (angleAdjustment h) (measures h) v (ultraSimplePath h)
    (maxDistanceLimit h) (port h).

(** [Lock] waits while the mutex is held. *)
Definition lock_handler (h : DefaultHandler) : outcome DefaultHandler :=
  if handlerMutex h then Blocks else Returns (set_handlerMutex true h).
Definition unlock_handler (h : DefaultHandler) : DefaultHandler :=
  set_handlerMutex false h.

Definition lock_measures (h : DefaultHandler) : outcome DefaultHandler :=
  if measuresMutex h then Blocks else Returns (set_measuresMutex true h).
Definition unlock_measures (h : DefaultHandler) : DefaultHandler :=
  set_measuresMutex false h.

Definition IsRunning (h : DefaultHandler) : bool := isRunning h.

(** [GetMeasures]: a copy of the buffer, taken while no writer holds
    [measuresMutex]. *)
Definition GetMeasures (h : DefaultHandler) : outcome Measures :=
  if measuresMutex h then Blocks else Returns (measures h).

Definition Handler_GetAverageDistanceFromAngle (h : DefaultHandler)
    (middleAngle width : Z) : outcome (float * option error) :=
  measures ← GetMeasures h;
  GetAverageDistanceFromAngle measures middleAngle width.

Definition Handler_GetAverageDistanceFromDirection (h : DefaultHandler)
    (width : Z) (direction : CardinalDirection)
  : outcome (float * option error) :=
  measures ← GetMeasures h;
  GetAverageDistanceFromDirection measures width direction.

Definition Handler_GetAverageDistancesFromDirections (h : DefaultHandler)
    (width : Z) (directions : list CardinalDirection)
  : outcome (option (gmap N float) * option error) :=
  measures ← GetMeasures h;
  GetAverageDistancesFromDirections measures width directions.

Definition GetAverageDistancesFromAllDirections (h : DefaultHandler)
    (width : Z) : outcome (option (gmap N float) * option error) :=
  measures ← GetMeasures h;
  GetAverageDistanceFromAllDirections measures width.

(** [h.measures[i] = m]. *)
Definition store (measures : Measures) (i : Z) (m : Measure)
  : outcome Measures :=
  if (0 <=? i) && (i <? Z.of_nat (length measures))
  then Returns (<[Z.to_nat i := Some m]> measures)
  else Panics (IndexOutOfRange i (Z.of_nat (length measures))).

(* ===================================================================== *)
(** ** Running the handler *)
(* ===================================================================== *)

(** What a [bufio.Scanner] on a pipe yields while [scanLines] runs: each
    line with [ctx.Err()] when the context is done as the line is
    reached, and the scanner's error once the lines end. *)
Record Stream : Set := mkStream {
  scanned : list (string * option error);
  scanErr : option error
}.

(** What the collaborators of one [Run] answer. *)
Record World : Set := mkWorld {
  newProducerErr : option error;
  executableMissing : bool;
  stdoutPipeErr : option error;
  stderrPipeErr : option error;
  startErr : option error;
  stdout : Stream;
  stderr : Stream;
  stderrFailsFirst : bool;
  stdoutCloseErr : option error;
  stderrCloseErr : option error
}.

Definition HandlerLoggerProducerTag : string := "RPLiDAR_HANDLER".

Section Running.

Variable ToFloat64 : string -> option float.
Variable ToInt : string -> option Z.

Definition handleStdoutLine (h : DefaultHandler) (line : string)
  : outcome (DefaultHandler * option error) :=
  let h := set_stdoutLinesRead (GoInt.add (stdoutLinesRead h) 1) h in
  if stdoutLinesRead h <=? IgnoreFirstStdoutMessages then Returns (h, None)
  else
    match NewMeasureFromString ToFloat64 ToInt line
            (isUpsideDown h) (angleAdjustment h) with
    | (Some measure, None) =>
        if (GetDistance measure <? 0)%float
           || (maxDistanceLimit h <? GetDistance measure)%float
        then Returns (h, None)
        else
          h ← lock_measures h;
          let angle := GoInt.rem (Float64.to_int (GetAngle measure)) 360 in
          measures' ← store (measures h) angle measure;
          Returns (unlock_measures (set_measures measures' h), None)
    | _ => Returns (h, None)
    end.

Definition handleStderrLine (h : DefaultHandler) (line : string)
  : outcome (DefaultHandler * option error) :=
  Returns (h, None).

(** The loop of [scanLines] over the lines still to come. *)
Fixpoint scan_loop
    (lineHandler : DefaultHandler -> string
                   -> outcome (DefaultHandler * option error))
    (lines : list (string * option error)) (scanErr : option error)
    (h : DefaultHandler) : outcome (DefaultHandler * option error) :=
  match lines with
  | [] =>
      match scanErr with
      | Some err => Returns (h, Some (ErrWrap "scan error" err))
      | None => Returns (h, None)
      end
  | (text, Some ctxErr) :: _ => Returns (h, Some ctxErr)
  | (text, None) :: rest =>
      r ← lineHandler h (GoStrings.TrimSpace text);
      match r.2 with
      | Some err => Returns (r.1, Some err)
      | None => scan_loop lineHandler rest scanErr r.1
      end
  end.

Definition scanLines (h : DefaultHandler) (r : Stream)
    (lineHandler : option (DefaultHandler -> string
                           -> outcome (DefaultHandler * option error)))
  : outcome (DefaultHandler * option error) :=
  match lineHandler with
  | None => Returns (h, Some ErrNilLineHandler)
  | Some f => scan_loop f (scanned r) (scanErr r) h
  end.

(** The first error the two readers hand to the group. *)
Definition wait (w : World) (errOut errErr : option error) : option error :=
  match errOut, errErr with
  | Some e1, Some e2 => Some (if stderrFailsFirst w then e2 else e1)
  | Some e1, None => Some e1
  | None, e2 => e2
  end.

Definition runToWrap (w : World) (h : DefaultHandler)
  : outcome (DefaultHandler * option error) :=
  let h := set_measures (replicate 360 None) h in
  let h := set_stdoutLinesRead 0 h in
  if executableMissing w
  then Returns (h, Some (ErrExecutableNotFound (ultraSimplePath h)))
  else match stdoutPipeErr w with
  | Some err => Returns (h, Some (ErrWrap "stdout pipe error" err))
  | None =>
  match stderrPipeErr w with
  | Some err => Returns (h, Some (ErrWrap "stderr pipe error" err))
  | None =>
  match startErr w with
  | Some err => Returns (h, Some (ErrWrap "start command error" err))
  | None =>
      out ← scanLines h (stdout w) (Some handleStdoutLine);
      err ← scanLines out.1 (stderr w) (Some handleStderrLine);
      let h := err.1 in
      let waited := wait w out.2 err.2 in
      if match waited with
         | Some e => negb (is_canceled e)
         | None => false
         end
      then Returns (h, waited)
      else match stdoutCloseErr w with
      | Some e => Returns (h, Some (ErrWrap "stdout close error" e))
      | None =>
      match stderrCloseErr w with
      | Some e => Returns (h, Some (ErrWrap "stderr close error" e))
      | None => Returns (h, None)
      end end
  end end end.

(** The function [Run] defers: the running flag is cleared under
    [handlerMutex]. *)
Definition clear_running (h : DefaultHandler) : outcome DefaultHandler :=
  h ← lock_handler h;
  Returns (unlock_handler (set_isRunning false h)).

Definition Run (w : World) (h : DefaultHandler)
  : outcome (DefaultHandler * option error) :=
  h ← lock_handler h;
  if IsRunning h
  then Returns (unlock_handler h, Some ErrHandlerAlreadyRunning)
  else
    let h := set_isRunning true h in
    let h := unlock_handler h in
    match newProducerErr w with
    | Some err =>
        h ← clear_running h;
        Returns (h, Some (ErrWrap "failed to create handler logger producer"
                            err))
    | None =>
        let h := set_handlerLoggerProducer (Some HandlerLoggerProducerTag) h in
        r ← runToWrap w h;
        h ← clear_running r.1;
        Returns (h, r.2)
    end.

End Running.

(* ===================================================================== *)
(** ** What the averaging engine is meant to compute *)
(* ===================================================================== *)

(** A width the validation lets through. *)
Definition valid_width (width : Z) : Prop :=
  Z.odd width = true /\ 1 <= width < 360.

(** The window of the spec: [(middleAngle + k) mod 360] for [k] from
    [-half] to [half], in that order. *)
Definition window (middleAngle width : Z) : list Z :=
  let half := (width - 1) / 2 in
  map (fun k => (middleAngle + k) mod 360) (through (- half) half).

(** The slot at [angle] is present with a distance and a quality that
    are not zero. *)
Definition contributes (measures : Measures) (angle : Z) : bool :=
  match measures !! Z.to_nat angle with
  | Some (Some m) => negb (distance m =? 0)%float && negb (quality m =? 0)
  | _ => false
  end.

Definition distance_at (measures : Measures) (angle : Z) : float :=
  match measures !! Z.to_nat angle with
  | Some (Some m) => distance m
  | _ => 0%float
  end.

(** The running sum over the angles that contribute, in order. *)
Definition total_distance (measures : Measures) (angles : list Z) : float :=
  fold_left (fun s a => (s + distance_at measures a)%float)
            (List.filter (contributes measures) angles) 0%float.

Definition contributing (measures : Measures) (angles : list Z) : Z :=
  Z.of_nat (length (List.filter (contributes measures) angles)).

(* ===================================================================== *)
(** ** Definitions that the statements use *)
(* ===================================================================== *)

(** Side conditions on concrete widths and angles. *)
Ltac side :=
  unfold valid_width; repeat split;
  first [ assumption | reflexivity | lia
        | vm_compute; first [ reflexivity | discriminate | intro; discriminate ] ].

(** The whole degree at which [GetAverageDistanceFromDirection] centres
    its window. *)
Definition direction_degree (direction : CardinalDirection) : Z :=
  let directionAngle := Angle direction in
  Float64.to_int
    (if (180 <=? directionAngle)%float then Float64.Ceil directionAngle
     else Float64.Floor directionAngle).

(** The rule of the spec on an angle of [halves] half degrees: the
    ceiling from 180 degrees on, the floor below. *)
Definition round_half_degrees (halves : Z) : Z :=
  if 360 <=? halves then (halves + 1) / 2 else halves / 2.

(** The angles of [CardinalDirectionAngles] in half degrees. *)
Definition half_degrees (direction : CardinalDirection) : Z :=
  Float64.to_int (Angle direction * 2)%float.

(** An ASCII byte that is not white space. *)
Definition plain (c : ascii) : bool :=
  negb (GoStrings.is_ascii_space c) && (GoStrings.byte c <? 0x80)%N.

Fixpoint all_plain (s : string) : bool :=
  match s with
  | EmptyString => true
  | String c rest => plain c && all_plain rest
  end.

(** The angle lies in [0, 360). *)
Definition normalized (angle : float) : bool :=
  ((0 <=? angle) && (angle <? 360))%float.

(** The fields a reader of lines leaves alone. *)
Definition same_control (h h' : DefaultHandler) : Prop :=
  handlerMutex h' = handlerMutex h /\ isRunning h' = isRunning h.

(** A handler at rest whose buffer holds no reading. *)
Definition idle_handler : DefaultHandler :=
  mkHandler false false false None 460800 false 0 (replicate 360 None) 0
    "/opt/ultra_simple" 12000 "/dev/ttyUSB0".

(** A handler in the middle of a run: seven lines read, one of them a
    measure at 12 degrees. *)
Definition running_handler : DefaultHandler :=
  mkHandler false false true (Some HandlerLoggerProducerTag) 460800 false 0
    (<[12%nat := Some (mkMeasure 12.5 100 47 false)]> (replicate 360 None))
    7 "/opt/ultra_simple" 12000 "/dev/ttyUSB0".

(** A world in which everything works and the tool prints one line. *)
Definition quiet_world : World :=
  mkWorld None false None None None
    (mkStream [("banner"%string, None)] None) (mkStream [] None)
    false None None.

(** A handler past the lines it ignores, with the adjustment -10. *)
Definition adjusted_handler : DefaultHandler :=
  mkHandler false false true (Some "RPLiDAR_HANDLER"%string) 460800 false
    (-10) (replicate 360 None) 6 "/opt/ultra_simple" 12000 "/dev/ttyUSB0".

(* ===================================================================== *)
(** ** The rest of types.go: names of directions, building a handler *)
(* ===================================================================== *)

Definition CardinalDirectionNames : gmap N string :=
  list_to_map [
    (CardinalDirectionNorth, "north"%string);
    (CardinalDirectionWest, "west"%string);
    (CardinalDirectionEast, "east"%string);
    (CardinalDirectionSouth, "south"%string);
    (CardinalDirectionNorthwest, "northwest"%string);
    (CardinalDirectionNortheast, "northeast"%string);
    (CardinalDirectionSouthwest, "southwest"%string);
    (CardinalDirectionSoutheast, "southeast"%string);
    (CardinalDirectionWestNorthwest, "west-northwest"%string);
    (CardinalDirectionNorthNorthwest, "north-northwest"%string);
    (CardinalDirectionEastNortheast, "east-northeast"%string);
    (CardinalDirectionNorthNortheast, "north-northeast"%string);
    (CardinalDirectionWestSouthwest, "west-southwest"%string);
    (CardinalDirectionEastSoutheast, "east-southeast"%string);
    (CardinalDirectionSouthSouthwest, "south-southwest"%string);
    (CardinalDirectionSouthSoutheast, "south-southeast"%string)
  ].

(** [CardinalDirection.String]: a key the map lacks reads as the empty
    string. *)
Definition CardinalDirection_String (r : CardinalDirection) : string :=
  default EmptyString (CardinalDirectionNames !! r).

Definition SlamtecC1BaudRate : Z := 460800.

(** [goconcurrentlogger.ErrNilLogger], an error of the logger's module. *)
Definition ErrNilLogger : error := ErrExternal "goconcurrentlogger.ErrNilLogger".

(** [NewDefaultHandler]; [loggerIsNil] tells whether the logger handed in
    is nil.  The fields the composite literal leaves out have their zero
    values: the flag is clear, the mutexes are free, the buffer holds 360
    nil pointers and no line has been read. *)
Definition NewDefaultHandler (baudRate : Z) (port : string)
    (isUpsideDown : bool) (angleAdjustment : float) (loggerIsNil : bool)
    (ultraSimplePath : string) (maxDistanceLimit : float)
  : option DefaultHandler * option error :=
  if loggerIsNil then (None, Some ErrNilLogger)
  else if bool_decide (GoStrings.TrimSpace ultraSimplePath = EmptyString)
  then (None, Some ErrEmptyUltraSimplePath)
  else if (maxDistanceLimit <=? 0)%float
  then (None, Some ErrInvalidMaxDistanceLimit)
  else (Some (mkHandler false false false None baudRate isUpsideDown
                angleAdjustment (replicate 360 None) 0 ultraSimplePath
                maxDistanceLimit port), None).

Definition NewSlamtecC1Handler (port : string) (isUpsideDown : bool)
    (angleAdjustment : float) (loggerIsNil : bool)
    (ultraSimplePath : string) (maxDistanceLimit : float)
  : option DefaultHandler * option error :=
  NewDefaultHandler SlamtecC1BaudRate port isUpsideDown angleAdjustment
    loggerIsNil ultraSimplePath maxDistanceLimit.

(** The first width check that fails, in the order of the checks. *)
Definition width_error (width : Z) : option error :=
  if Z.even width then Some ErrAngleWidthMustBeOdd
  else if width <? 1 then Some ErrAngleWidthTooSmall
  else if 360 <=? width then Some ErrAngleWidthTooLarge
  else None.

(** The line the external tool prints for three fields, with its
    rotation marker or without. *)
Definition tool_line (marker : bool) (fAngle fDistance fQuality : string)
  : string :=
  ((if marker then "S " else "")
   ++ fAngle ++ " " ++ fDistance ++ " " ++ fQuality)%string.

(** A buffer with readings at 359, 0 and 2 degrees, the last of quality
    zero. *)
Definition sample_measures : Measures :=
  <[359%nat := Some (mkMeasure 359.5 50 40 false)]>
    (<[0%nat := Some (mkMeasure 0.25 100 47 true)]>
       (<[2%nat := Some (mkMeasure 2 70 0 false)]> (replicate 360 None))).

(** The settings of a handler, which no line and no run writes. *)
Definition same_settings (h h' : DefaultHandler) : Prop :=
  baudRate h' = baudRate h /\ isUpsideDown h' = isUpsideDown h
  /\ angleAdjustment h' = angleAdjustment h
  /\ ultraSimplePath h' = ultraSimplePath h
  /\ maxDistanceLimit h' = maxDistanceLimit h /\ port h' = port h.

(** A handler past the lines it ignores, with a reading at 12 degrees. *)
Definition reading_handler : DefaultHandler :=
  mkHandler false false true (Some "RPLiDAR_HANDLER"%string) 460800 false 0
    (<[12%nat := Some (mkMeasure 12.5 100 47 false)]> (replicate 360 None))
    9 "/opt/ultra_simple" 12000 "/dev/ttyUSB0".

(** The buffer's length, the buffer's mutex, the producer and the
    settings. *)
Definition kept (h h' : DefaultHandler) : Prop :=
  length (measures h') = length (measures h)
  /\ measuresMutex h' = measuresMutex h
  /\ handlerLoggerProducer h' = handlerLoggerProducer h
  /\ same_settings h h'.

(** No line of the stream finds the context done. *)
Definition uncancelled (r : Stream) : Prop :=
  Forall (fun l : string * option error => l.2 = None) (scanned r).

(** A world whose logger hands out no producer. *)
Definition world_without_producer : World :=
  mkWorld (Some (ErrExternal "logger is closed")) false None None None
    (mkStream [] None) (mkStream [] None) false None None.

(** A world in which the executable is not where the handler looks. *)
Definition world_without_executable : World :=
  mkWorld None true None None None
    (mkStream [] None) (mkStream [] None) false None None.

(** A world whose context is done before a line is handled. *)
Definition world_cancelled : World :=
  mkWorld None false None None None
    (mkStream [("12.5 100 47"%string, Some ErrContextCanceled)] None)
    (mkStream [("warning"%string, Some ErrContextCanceled)] None)
    false None None.

(** A world in which the tool prints eight lines and ends. *)
Definition world_of_eight_lines : World :=
  mkWorld None false None None None
    (mkStream [("a"%string, None); ("b"%string, None); ("c"%string, None);
               ("d"%string, None); ("e"%string, None); ("f"%string, None);
               ("12.5 100 47"%string, None); ("S 0.5 200 40"%string, None)]
              None)
    (mkStream [("warning"%string, None)] None) false None None.

(** The handler [idle_handler] becomes by a run in
    [world_of_eight_lines]. *)
Definition after_eight_lines : DefaultHandler :=
  Eval vm_compute in
    match Run DecimalReader.ToFloat64 DecimalReader.ToInt
            world_of_eight_lines idle_handler with
    | Returns (h, _) => h
    | _ => idle_handler
    end.

(** A handler at rest that holds a reading of an earlier run. *)
Definition rested_handler : DefaultHandler :=
  set_isRunning false reading_handler.

(** Every byte of [s] is ASCII white space. *)
Fixpoint all_blank (s : string) : bool :=
  match s with
  | EmptyString => true
  | String c rest => GoStrings.is_ascii_space c && all_blank rest
  end.

(* ===================================================================== *)
(** ** Loops and ranges *)
(* ===================================================================== *)

Lemma wrap_small z :
  GoInt.min_int <= z <= GoInt.max_int -> GoInt.wrap z = z.
Proof.
  unfold GoInt.wrap, GoInt.min_int, GoInt.max_int. intros Hz.
  rewrite Z.mod_small by lia. lia.
Qed.

Lemma elem_of_upto lo hi x : x ∈ upto lo hi <-> lo <= x < hi.
Proof.
  unfold upto. rewrite list_elem_of_fmap. split.
  - intros (k & -> & Hk). apply elem_of_seq in Hk. lia.
  - intros Hx. exists (Z.to_nat (x - lo)). split; [lia|].
    apply elem_of_seq. lia.
Qed.

Lemma upto_nil lo hi : hi <= lo -> upto lo hi = [].
Proof. intros H. unfold upto. replace (Z.to_nat (hi - lo)) with 0%nat by lia. done. Qed.

Lemma upto_cons lo hi : lo < hi -> upto lo hi = lo :: upto (lo + 1) hi.
Proof.
  intros H. unfold upto.
  replace (Z.to_nat (hi - lo)) with (S (Z.to_nat (hi - (lo + 1)))) by lia.
  cbn [seq map]. f_equal; [lia|].
  rewrite <- seq_shift, map_map. apply map_ext. intros k. lia.
Qed.

Lemma upto_app lo mid hi :
  lo <= mid <= hi -> upto lo hi = upto lo mid ++ upto mid hi.
Proof.
  intros H. unfold upto.
  replace (Z.to_nat (hi - lo))
    with (Z.to_nat (mid - lo) + Z.to_nat (hi - mid))%nat by lia.
  rewrite seq_app, map_app. f_equal.
  replace (0 + Z.to_nat (mid - lo))%nat with (Z.to_nat (mid - lo) + 0)%nat by lia.
  rewrite <- fmap_add_seq.
  change (map ?f (?g <$> ?l)) with (map f (map g l)).
  rewrite map_map. apply map_ext. intros k. lia.
Qed.

Lemma upto_snoc lo hi : lo <= hi -> upto lo (hi + 1) = upto lo hi ++ [hi].
Proof.
  intros H. rewrite (upto_app lo hi (hi + 1)) by lia. f_equal.
  rewrite upto_cons by lia. rewrite upto_nil by lia. done.
Qed.

Lemma map_upto_shift (f : Z -> Z) c lo hi :
  (forall k, lo <= k < hi -> f k = k + c) ->
  map f (upto lo hi) = upto (lo + c) (hi + c).
Proof.
  intros Hf. unfold upto. rewrite map_map.
  replace (hi + c - (lo + c)) with (hi - lo) by lia.
  apply map_ext_in. intros k Hk. apply in_seq in Hk. rewrite Hf; lia.
Qed.

Lemma NoDup_upto lo hi : NoDup (upto lo hi).
Proof.
  unfold upto. apply NoDup_fmap_2; [|apply NoDup_seq].
  intros a b Hab. lia.
Qed.

Lemma for_range_app {A S} (xs ys : list A) (body : S -> A -> outcome S) s :
  for_range (xs ++ ys) body s =
  (s' ← for_range xs body s; for_range ys body s').
Proof.
  revert s. induction xs as [|x xs IH]; intros s; cbn; [done|].
  destruct (body s x); cbn; auto.
Qed.

(* ===================================================================== *)
(** ** The angles the engine inspects *)
(* ===================================================================== *)

Section Window.

Variables middleAngle width : Z.
Hypothesis Hwidth : valid_width width.
Hypothesis Hwide : 1 < width.
Hypothesis Hmiddle : 0 <= middleAngle < 360.

Let half := (width - 1) / 2.

Lemma half_spec : width = 2 * half + 1.
Proof using Hwidth.
  destruct Hwidth as [Hodd _]. apply Z.odd_spec in Hodd as [q Hq].
  subst half. rewrite Hq.
  replace (2 * q + 1 - 1) with (q * 2) by lia.
  rewrite Z.div_mul by lia. lia.
Qed.

Lemma half_bounds : 1 <= half <= 179.
Proof using Hwidth Hwide.
  pose proof half_spec. destruct Hwidth as [_ Hw]. lia.
Qed.

(** No operation of the window's arithmetic wraps around. *)
Lemma window_angles_unfold :
  window_angles middleAngle width =
  (if middleAngle - half <? 0
   then upto (360 + (middleAngle - half)) 360 else [])
  ++ (if 360 <=? middleAngle + half
      then through 0 (middleAngle + half - 360) else [])
  ++ through (Z.max (middleAngle - half) 0)
             (Z.min 360 (middleAngle + half)).
Proof using Hwidth Hwide Hmiddle.
  pose proof half_bounds as Hh. destruct Hwidth as [_ Hw].
  unfold window_angles, GoInt.quot, GoInt.sub, GoInt.add.
  assert (Hs : forall z, -1000 <= z <= 1000 -> GoInt.wrap z = z).
  { intros z Hz. apply wrap_small.
    unfold GoInt.min_int, GoInt.max_int. lia. }
  rewrite (Hs (width - 1)) by lia.
  rewrite Z.quot_div_nonneg by lia. fold half.
  rewrite (Hs half) by lia.
  rewrite (Hs (middleAngle - half)), (Hs (middleAngle + half)) by lia.
  destruct (Z.ltb_spec (middleAngle - half) 0);
    destruct (Z.leb_spec 360 (middleAngle + half));
    rewrite ?Hs by lia; reflexivity.
Qed.

(** A window that ends below 360 is inspected as the spec has it. *)
Lemma window_angles_inside :
  middleAngle + half < 360 ->
  window_angles middleAngle width = window middleAngle width.
Proof using Hwidth Hwide Hmiddle.
  intros Hin. pose proof half_bounds as Hh.
  rewrite window_angles_unfold. unfold window. fold half.
  destruct (Z.leb_spec 360 (middleAngle + half)); [lia|].
  rewrite Z.min_r by lia. cbn [app]. unfold through.
  destruct (Z.ltb_spec (middleAngle - half) 0) as [Hneg|Hpos].
  - rewrite Z.max_r by lia.
    rewrite (upto_app (- half) (- middleAngle) (half + 1)) by lia.
    rewrite map_app. f_equal.
    + rewrite (map_upto_shift _ (middleAngle + 360)).
      * f_equal; lia.
      * intros k Hk.
        replace (middleAngle + k) with (middleAngle + k + 360 + (-1) * 360)
          by lia.
        rewrite Z_mod_plus_full, Z.mod_small; lia.
    + rewrite (map_upto_shift _ middleAngle).
      * f_equal; lia.
      * intros k Hk. rewrite Z.mod_small; lia.
  - rewrite Z.max_l by lia. cbn [app].
    rewrite (map_upto_shift _ middleAngle).
    + f_equal; lia.
    + intros k Hk. rewrite Z.mod_small; lia.
Qed.

(** A window that reaches 360 is inspected from its wrapped part on,
    and the last angle inspected is 360 itself. *)
Lemma window_angles_crossing :
  360 <= middleAngle + half ->
  window_angles middleAngle width =
  (through 0 (middleAngle + half - 360) ++ upto (middleAngle - half) 360)
  ++ [360].
Proof using Hwidth Hwide Hmiddle.
  intros Hout. pose proof half_bounds as Hh.
  rewrite window_angles_unfold.
  destruct (Z.ltb_spec (middleAngle - half) 0); [lia|].
  destruct (Z.leb_spec 360 (middleAngle + half)); [|lia].
  rewrite Z.max_l, Z.min_l by lia. cbn [app].
  rewrite <- app_assoc. f_equal.
  unfold through. apply upto_snoc. lia.
Qed.

Lemma window_in_range a : a ∈ window middleAngle width -> 0 <= a < 360.
Proof.
  unfold window. rewrite list_elem_of_fmap. intros (k & -> & _).
  apply Z.mod_pos_bound. lia.
Qed.

(** No angle of the window is met twice. *)
Lemma window_NoDup : NoDup (window middleAngle width).
Proof using Hwidth Hwide.
  pose proof half_bounds as Hh. unfold window. fold half.
  apply NoDup_fmap_2_strong; [|apply NoDup_upto].
  intros j k Hj Hk Hjk. unfold through in Hj, Hk.
  apply elem_of_upto in Hj, Hk.
  assert (Hd : (j - k) mod 360 = 0).
  { replace (j - k) with ((middleAngle + j) - (middleAngle + k)) by lia.
    rewrite Zminus_mod, Hjk, Z.sub_diag. reflexivity. }
  apply Z.mod_divide in Hd; [|lia].
  destruct Hd as [q Hq]. nia.
Qed.

Lemma window_length : Z.of_nat (length (window middleAngle width)) = width.
Proof using Hwidth Hwide.
  pose proof half_bounds as Hh. pose proof half_spec as Hs.
  unfold window, through, upto. fold half.
  rewrite !length_map, length_seq. lia.
Qed.

End Window.

(* ===================================================================== *)
(** ** The averaging loop *)
(* ===================================================================== *)

Lemma rem_2_odd width : Z.odd width = true -> (GoInt.rem width 2 =? 0) = false.
Proof.
  intros Hodd. unfold GoInt.rem. rewrite Zquot.Zrem_odd, Hodd.
  apply Z.eqb_neq. destruct width; cbn; try lia. discriminate Hodd.
Qed.

Lemma rem_2_even width : Z.even width = true -> (GoInt.rem width 2 =? 0) = true.
Proof.
  intros Heven. unfold GoInt.rem. rewrite Zquot.Zrem_even, Heven. reflexivity.
Qed.

(** The width checks let a valid width through. *)
Lemma valid_width_passes measures middleAngle width :
  valid_width width ->
  GetAverageDistanceFromAngle measures middleAngle width =
  if width =? 1 then
    measure ← index measures middleAngle;
    match measure with
    | None => Returns (0.0%float, None)
    | Some m => Returns (GetDistance m, None)
    end
  else
    '(totalDistance, count) ←
      for_range (window_angles middleAngle width) (accumulate measures)
        (0%float, 0);
    Returns ((totalDistance / Float64.of_int count)%float, None).
Proof.
  intros [Hodd Hw]. unfold GetAverageDistanceFromAngle.
  rewrite rem_2_odd by assumption.
  destruct (Z.ltb_spec width 1); [lia|].
  destruct (Z.leb_spec 360 width); [lia|]. reflexivity.
Qed.

Section Averaging.

Variable measures : Measures.
Hypothesis Hlen : length measures = 360%nat.

Lemma index_in_range a :
  0 <= a < 360 ->
  exists slot, measures !! Z.to_nat a = Some slot
               /\ index measures a = Returns slot.
Proof using Hlen.
  intros Ha. unfold index. rewrite Hlen.
  destruct (Z.leb_spec 0 a); [|lia].
  destruct (Z.ltb_spec a (Z.of_nat 360)); [|lia]. cbn [andb].
  destruct (lookup_lt_is_Some_2 measures (Z.to_nat a)) as [slot Hslot];
    [lia|].
  exists slot. rewrite Hslot. auto.
Qed.

Lemma index_360 : index measures 360 = Panics (IndexOutOfRange 360 360).
Proof using Hlen. unfold index. rewrite Hlen. reflexivity. Qed.

(** One turn of the loop at an angle of the buffer. *)
Lemma accumulate_in_range acc a :
  0 <= a < 360 ->
  accumulate measures acc a =
  Returns (if contributes measures a
           then ((acc.1 + distance_at measures a)%float, GoInt.add acc.2 1)
           else acc).
Proof using Hlen.
  intros Ha. destruct (index_in_range a Ha) as (slot & Hslot & Hidx).
  unfold accumulate, contributes, distance_at. rewrite Hidx, Hslot.
  cbn. destruct slot as [m|]; [|reflexivity].
  unfold GetDistance, GetQuality.
  destruct (distance m =? 0)%float, (quality m =? 0); reflexivity.
Qed.

Lemma accumulate_360 acc :
  accumulate measures acc 360 = Panics (IndexOutOfRange 360 360).
Proof using Hlen. unfold accumulate. rewrite index_360. reflexivity. Qed.

(** The loop over angles of the buffer: the sum and the count of the
    slots that contribute. *)
Lemma for_range_in_range angles total count :
  Forall (fun a => 0 <= a < 360) angles ->
  0 <= count ->
  count + Z.of_nat (length angles) <= GoInt.max_int ->
  for_range angles (accumulate measures) (total, count) =
  Returns
    (fold_left (fun s a => (s + distance_at measures a)%float)
               (List.filter (contributes measures) angles) total,
     count + Z.of_nat (length (List.filter (contributes measures) angles))).
Proof using Hlen.
  intros Hall. revert total count.
  induction Hall as [|a angles Ha _ IH]; intros total count Hc Hmax.
  - cbn. rewrite Z.add_0_r. reflexivity.
  - cbn [for_range List.filter]. rewrite accumulate_in_range by assumption.
    cbn [length] in Hmax. cbn [mbind outcome_bind].
    destruct (contributes measures a); cbn [fst snd].
    + unfold GoInt.add. rewrite wrap_small
        by (unfold GoInt.min_int, GoInt.max_int in *; lia).
      rewrite IH by lia. cbn [fold_left length]. do 2 f_equal. lia.
    + rewrite IH by lia. reflexivity.
Qed.

Variables middleAngle width : Z.
Hypothesis Hwidth : valid_width width.
Hypothesis Hwide : 1 < width.
Hypothesis Hmiddle : 0 <= middleAngle < 360.

(** A window that ends below 360: the engine inspects the window of
    the spec and returns the sum over the count. *)
Lemma average_inside :
  middleAngle + (width - 1) / 2 < 360 ->
  GetAverageDistanceFromAngle measures middleAngle width =
  Returns
    ((total_distance measures (window middleAngle width)
      / Float64.of_int (contributing measures (window middleAngle width)))
     %float, None).
Proof using Hlen Hwidth Hwide Hmiddle.
  intros Hin. rewrite valid_width_passes by assumption.
  destruct (Z.eqb_spec width 1); [lia|].
  rewrite window_angles_inside by assumption.
  rewrite for_range_in_range.
  - reflexivity.
  - apply Forall_forall. intros a Ha.
    apply (window_in_range middleAngle width). assumption.
  - lia.
  - rewrite window_length by assumption. destruct Hwidth as [_ Hw].
    unfold GoInt.max_int. lia.
Qed.

(** A window that reaches 360: the engine reads the slot 360, which
    the buffer does not have. *)
Lemma average_crossing :
  360 <= middleAngle + (width - 1) / 2 ->
  GetAverageDistanceFromAngle measures middleAngle width =
  Panics (IndexOutOfRange 360 360).
Proof using Hlen Hwidth Hwide Hmiddle.
  intros Hout. rewrite valid_width_passes by assumption.
  destruct (Z.eqb_spec width 1); [lia|].
  pose proof (half_bounds width Hwidth Hwide) as Hh.
  rewrite window_angles_crossing by assumption.
  rewrite for_range_app, for_range_in_range.
  - cbn. rewrite accumulate_360. reflexivity.
  - apply Forall_app. split; apply Forall_forall; intros a Ha;
      apply elem_of_upto in Ha; lia.
  - lia.
  - rewrite length_app. unfold through, upto.
    rewrite !length_map, !length_seq. unfold GoInt.max_int. lia.
Qed.

End Averaging.

(* ===================================================================== *)
(** ** The window and the average (C1, C2, C7, C8) *)
(* ===================================================================== *)

(** The engine reads only slots of the buffer when the window ends below
    360: the angles it inspects are those of the spec's window, each of
    them once and each within the buffer. *)
Lemma reads_inside_in_bounds middleAngle width :
  valid_width width -> 1 < width -> 0 <= middleAngle < 360 ->
  middleAngle + (width - 1) / 2 < 360 ->
  window_angles middleAngle width = window middleAngle width
  /\ NoDup (window_angles middleAngle width)
  /\ Forall (fun a => 0 <= a <= 359) (window_angles middleAngle width).
Proof.
  intros Hw Hwide Hm Hin.
  rewrite window_angles_inside by assumption. split; [reflexivity|]. split.
  - apply window_NoDup; assumption.
  - apply Forall_forall. intros a Ha.
    apply window_in_range in Ha. lia.
Qed.

(** With no slot of the window contributing, and the window ending below
    360, the engine returns the quotient of zero by zero and no error. *)
Lemma no_data_inside (measures : Measures) middleAngle width :
  length measures = 360%nat ->
  valid_width width -> 1 < width -> 0 <= middleAngle < 360 ->
  middleAngle + (width - 1) / 2 < 360 ->
  Forall (fun a => contributes measures a = false) (window middleAngle width) ->
  GetAverageDistanceFromAngle measures middleAngle width =
  Returns ((0 / 0)%float, None)
  /\ is_nan (0 / 0)%float = true.
Proof.
  intros Hlen Hw Hwide Hm Hin Hnone. split; [|reflexivity].
  rewrite average_inside by assumption.
  unfold total_distance, contributing.
  replace (List.filter (contributes measures) (window middleAngle width))
    with (@nil Z); [reflexivity|].
  symmetry. induction Hnone as [|a l Ha _ IH]; [reflexivity|].
  cbn [List.filter]. rewrite Ha. exact IH.
Qed.

(** C1 (the code departs from it).  At [middleAngle = 359] and
    [width = 3] the window of the claim is [358, 359, 0]; the engine
    builds the angles [0, 358, 359, 360] and panics on the slot 360 of
    any buffer of 360 slots, so no sum over a count is returned. *)
Theorem window_359_3_inspects_360 (measures : Measures) :
  length measures = 360%nat ->
  window 359 3 = [358; 359; 0]
  /\ window_angles 359 3 = [0; 358; 359; 360]
  /\ GetAverageDistanceFromAngle measures 359 3 =
     Panics (IndexOutOfRange 360 360).
Proof.
  intros Hlen. split; [reflexivity|]. split; [reflexivity|].
  apply average_crossing; side.
Qed.

Lemma window_359_3_inspects_360_witness :
  window 359 3 = [358; 359; 0]
  /\ window_angles 359 3 = [0; 358; 359; 360]
  /\ GetAverageDistanceFromAngle (replicate 360 None) 359 3 =
     Panics (IndexOutOfRange 360 360).
Proof. apply (window_359_3_inspects_360 (replicate 360 None)). reflexivity. Defined.

(** C2 (the code departs from it).  For a middle angle in [0, 359] and a
    valid width above one whose window reaches 360, the engine reads the
    index 360 of the 360-slot buffer and panics: the out-of-bounds branch
    is reached. *)
Theorem window_reaching_360_reads_out_of_bounds
    (measures : Measures) middleAngle width :
  length measures = 360%nat ->
  valid_width width -> 1 < width -> 0 <= middleAngle <= 359 ->
  360 <= middleAngle + (width - 1) / 2 ->
  360 ∈ window_angles middleAngle width
  /\ GetAverageDistanceFromAngle measures middleAngle width =
     Panics (IndexOutOfRange 360 360).
Proof.
  intros Hlen Hw Hwide Hm Hout. split.
  - rewrite window_angles_crossing by (assumption || lia).
    apply elem_of_app. right. apply list_elem_of_singleton. reflexivity.
  - apply average_crossing; assumption || lia.
Qed.

Lemma window_reaching_360_reads_out_of_bounds_witness :
  360 ∈ window_angles 338 45
  /\ GetAverageDistanceFromAngle (replicate 360 None) 338 45 =
     Panics (IndexOutOfRange 360 360).
Proof.
  apply (window_reaching_360_reads_out_of_bounds (replicate 360 None) 338 45);
    side.
Defined.

(** C7 (the code departs from it).  On the buffer with no reading, a
    window that ends below 360 yields the quotient of zero by zero, a
    NaN, and no error; the window of [middleAngle = 359], [width = 3]
    yields no result at all: the engine panics before it divides. *)
Theorem no_data_window_359_3_panics :
  GetAverageDistanceFromAngle (replicate 360 None) 100 3 =
    Returns ((0 / 0)%float, None)
  /\ is_nan (0 / 0)%float = true
  /\ GetAverageDistanceFromAngle (replicate 360 None) 359 3 =
     Panics (IndexOutOfRange 360 360).
Proof. repeat split; vm_compute; reflexivity. Qed.

(** C8.  With [width = 1] and a middle angle in [0, 359], the engine
    returns [0.0] and no error for an absent slot, and the slot's
    distance and no error for a present one, whatever its distance and
    quality. *)
Theorem width_one_returns_slot (measures : Measures) middleAngle :
  length measures = 360%nat ->
  0 <= middleAngle <= 359 ->
  (measures !! Z.to_nat middleAngle = Some None ->
   GetAverageDistanceFromAngle measures middleAngle 1 =
   Returns (0%float, None))
  /\ (forall m, measures !! Z.to_nat middleAngle = Some (Some m) ->
      GetAverageDistanceFromAngle measures middleAngle 1 =
      Returns (distance m, None))
  /\ (exists slot, measures !! Z.to_nat middleAngle = Some slot).
Proof.
  intros Hlen Hm.
  destruct (index_in_range measures Hlen middleAngle) as (slot & Hslot & Hidx);
    [lia|].
  assert (Hone : GetAverageDistanceFromAngle measures middleAngle 1 =
                 match slot with
                 | None => Returns (0%float, None)
                 | Some m => Returns (distance m, None)
                 end).
  { rewrite valid_width_passes by side.
    cbn. rewrite Hidx. reflexivity. }
  repeat split.
  - intros Habs. rewrite Hslot in Habs. injection Habs as ->. exact Hone.
  - intros m Hpres. rewrite Hslot in Hpres. injection Hpres as ->. exact Hone.
  - exists slot. exact Hslot.
Qed.

Lemma width_one_returns_slot_witness :
  let measures :=
    <[7%nat := Some (mkMeasure 7 0 0 false)]> (replicate 360 None) in
  (measures !! Z.to_nat 7 = Some None ->
   GetAverageDistanceFromAngle measures 7 1 = Returns (0%float, None))
  /\ (forall m, measures !! Z.to_nat 7 = Some (Some m) ->
      GetAverageDistanceFromAngle measures 7 1 = Returns (distance m, None))
  /\ (exists slot, measures !! Z.to_nat 7 = Some slot).
Proof.
  intros measures. apply (width_one_returns_slot measures 7); [reflexivity|lia].
Defined.

(* ===================================================================== *)
(** ** The width checks (C5) *)
(* ===================================================================== *)

(** C5, as the spec has it, fails: the widths 0 and 4 are both even, and
    the check for an odd width comes first, so both are answered with
    [ErrAngleWidthMustBeOdd]. *)
Lemma width_0_and_width_4_same_error :
  GetAverageDistanceFromAngle (replicate 360 None) 0 4 =
    Returns (0%float, Some ErrAngleWidthMustBeOdd)
  /\ GetAverageDistanceFromAngle (replicate 360 None) 0 0 =
    Returns (0%float, Some ErrAngleWidthMustBeOdd).
Proof. split; reflexivity. Qed.

(** C5, amended.  The three error kinds are pairwise distinct.  Every
    even width (0 and the even widths from 360 on among them) fails with
    [ErrAngleWidthMustBeOdd], every odd width below 1 with
    [ErrAngleWidthTooSmall] and every odd width from 360 on with
    [ErrAngleWidthTooLarge], for every buffer and middle angle; so the
    error for width 4 is the error for width 0 and differs from the error
    for width 361. *)
Theorem width_errors (measures : Measures) (middleAngle : Z) :
  (ErrAngleWidthMustBeOdd <> ErrAngleWidthTooSmall
   /\ ErrAngleWidthMustBeOdd <> ErrAngleWidthTooLarge
   /\ ErrAngleWidthTooSmall <> ErrAngleWidthTooLarge)
  /\ (forall width, Z.even width = true ->
      GetAverageDistanceFromAngle measures middleAngle width =
      Returns (0%float, Some ErrAngleWidthMustBeOdd))
  /\ (forall width, Z.odd width = true -> width < 1 ->
      GetAverageDistanceFromAngle measures middleAngle width =
      Returns (0%float, Some ErrAngleWidthTooSmall))
  /\ (forall width, Z.odd width = true -> 360 <= width ->
      GetAverageDistanceFromAngle measures middleAngle width =
      Returns (0%float, Some ErrAngleWidthTooLarge))
  /\ GetAverageDistanceFromAngle measures middleAngle 4 =
     GetAverageDistanceFromAngle measures middleAngle 0
  /\ GetAverageDistanceFromAngle measures middleAngle 4 =
     Returns (0%float, Some ErrAngleWidthMustBeOdd)
  /\ GetAverageDistanceFromAngle measures middleAngle 361 =
     Returns (0%float, Some ErrAngleWidthTooLarge)
  /\ GetAverageDistanceFromAngle measures middleAngle (-1) =
     Returns (0%float, Some ErrAngleWidthTooSmall).
Proof.
  split; [repeat split; discriminate|].
  split; [|split; [|split]].
  - intros width Heven. unfold GetAverageDistanceFromAngle.
    rewrite rem_2_even by assumption. reflexivity.
  - intros width Hodd Hsmall. unfold GetAverageDistanceFromAngle.
    rewrite rem_2_odd by assumption.
    destruct (Z.ltb_spec width 1); [reflexivity | lia].
  - intros width Hodd Hlarge. unfold GetAverageDistanceFromAngle.
    rewrite rem_2_odd by assumption.
    destruct (Z.ltb_spec width 1); [lia|].
    destruct (Z.leb_spec 360 width); [reflexivity | lia].
  - repeat split; reflexivity.
Qed.

(* ===================================================================== *)
(** ** Rounding a direction's angle (C6) *)
(* ===================================================================== *)

(** C6, as the spec has it, fails: the angle 157.5 of south-southeast is
    below 180 and is rounded down, to 157 and not to 158. *)
Lemma south_southeast_rounds_to_157 :
  Angle CardinalDirectionSouthSoutheast = 157.5%float
  /\ direction_degree CardinalDirectionSouthSoutheast = 157
  /\ direction_degree CardinalDirectionSouthSoutheast <> 158.
Proof. repeat split. vm_compute. discriminate. Qed.

(** C6, amended.  [GetAverageDistanceFromDirection] takes the ceiling of
    the direction's angle when the angle is at least 180 degrees and the
    floor otherwise, and hands that whole degree to
    [GetAverageDistanceFromAngle]; 157.5 is rounded to 157, 22.5 to 22
    and 202.5 to 203. *)
Theorem direction_rounding (measures : Measures) (width : Z) :
  (forall direction,
     GetAverageDistanceFromDirection measures width direction =
     GetAverageDistanceFromAngle measures (direction_degree direction) width)
  /\ Forall (fun d =>
       Angle d = (Float64.of_int (half_degrees d) / 2)%float
       /\ direction_degree d = round_half_degrees (half_degrees d))
     CardinalDirections
  /\ (Angle CardinalDirectionSouthSoutheast = 157.5%float
      /\ direction_degree CardinalDirectionSouthSoutheast = 157)
  /\ (Angle CardinalDirectionNorthNortheast = 22.5%float
      /\ direction_degree CardinalDirectionNorthNortheast = 22)
  /\ (Angle CardinalDirectionSouthSouthwest = 202.5%float
      /\ direction_degree CardinalDirectionSouthSouthwest = 203).
Proof.
  split; [reflexivity|]. split.
  - repeat constructor; vm_compute; reflexivity.
  - repeat split; vm_compute; reflexivity.
Qed.

(* ===================================================================== *)
(** ** Fields of a string without white space *)
(* ===================================================================== *)

Lemma append_cons c (s t : string) :
  (String c s ++ t = String c (s ++ t))%string.
Proof. reflexivity. Qed.

Lemma append_nil (t : string) : (EmptyString ++ t = t)%string.
Proof. reflexivity. Qed.

Lemma all_plain_app s t :
  all_plain (s ++ t) = all_plain s && all_plain t.
Proof.
  induction s as [|c s IH]; [reflexivity|].
  rewrite append_cons. cbn [all_plain]. rewrite IH, andb_assoc. reflexivity.
Qed.

Lemma space_width_plain c rest :
  plain c = true -> GoStrings.space_width (String c rest) = 0%nat.
Proof.
  unfold plain. intros [Hsp Hlow]%andb_true_iff.
  apply negb_true_iff in Hsp. cbn. rewrite Hsp, Hlow. reflexivity.
Qed.

Lemma append_assoc (s t u : string) : ((s ++ t) ++ u = s ++ (t ++ u))%string.
Proof.
  induction s as [|c s IH]; [reflexivity|].
  rewrite !append_cons, IH. reflexivity.
Qed.

Lemma append_empty_r (s : string) : (s ++ "" = s)%string.
Proof.
  induction s as [|c s IH]; [reflexivity|].
  rewrite append_cons, IH. reflexivity.
Qed.

Lemma fields_from_plain s cur acc :
  all_plain s = true ->
  GoStrings.fields_from s 0 cur acc = rev (GoStrings.flush (cur ++ s) acc).
Proof.
  revert cur. induction s as [|c s IH]; intros cur Hs.
  - cbn. rewrite append_empty_r. reflexivity.
  - cbn [all_plain] in Hs. apply andb_true_iff in Hs as [Hc Hs].
    cbn [GoStrings.fields_from]. rewrite (space_width_plain c s Hc).
    rewrite IH by assumption. rewrite append_assoc. reflexivity.
Qed.

(** A string without white space that is not empty is one field. *)
Lemma Fields_plain s :
  all_plain s = true -> s <> EmptyString -> GoStrings.Fields s = [s].
Proof.
  intros Hs Hne. unfold GoStrings.Fields. rewrite fields_from_plain by assumption.
  rewrite append_nil. destruct s; [contradiction|reflexivity].
Qed.

Lemma plain_digit d : plain (GoStrings.digit d) = true.
Proof.
  unfold GoStrings.digit. generalize (Z.to_nat d) as n. intros n.
  do 10 (destruct n as [|n]; [reflexivity|]).
  destruct n; reflexivity.
Qed.

Lemma all_plain_uint u : all_plain (NilEmpty.string_of_uint u) = true.
Proof. induction u; cbn; auto. Qed.

Lemma all_plain_decimal n : all_plain (GoStrings.decimal n) = true.
Proof. apply all_plain_uint. Qed.

Lemma all_plain_fixed n v acc :
  all_plain acc = true -> all_plain (GoStrings.fixed n v acc) = true.
Proof.
  revert v acc. induction n as [|n IH]; intros v acc Hacc;
    cbn [GoStrings.fixed]; [assumption|].
  apply IH. cbn [all_plain]. rewrite plain_digit, Hacc. reflexivity.
Qed.

Lemma all_plain_sign neg : all_plain (GoStrings.sign neg) = true.
Proof. destruct neg; reflexivity. Qed.

Lemma all_plain_FormatF x : all_plain (GoStrings.FormatF x) = true.
Proof.
  unfold GoStrings.FormatF. destruct (Prim2SF x) as [s|s| |s m e].
  - rewrite all_plain_app, all_plain_sign. reflexivity.
  - destruct s; reflexivity.
  - reflexivity.
  - cbv zeta. rewrite !all_plain_app, all_plain_sign, all_plain_decimal.
    cbn [andb]. rewrite all_plain_fixed; reflexivity.
Qed.

Lemma all_plain_FormatD i : all_plain (GoStrings.FormatD i) = true.
Proof.
  unfold GoStrings.FormatD. destruct (i <? 0).
  - rewrite all_plain_app, all_plain_decimal. reflexivity.
  - apply all_plain_decimal.
Qed.

Lemma all_plain_String m : all_plain (String_ m) = true.
Proof.
  unfold String_. rewrite !all_plain_app, !all_plain_FormatF, all_plain_FormatD.
  reflexivity.
Qed.

Lemma String_not_empty m : String_ m <> EmptyString.
Proof.
  unfold String_, AttributesSeparator.
  destruct (GoStrings.FormatF (angle m)); discriminate.
Qed.

(* ===================================================================== *)
(** ** Writing a measure and reading it back (C3) *)
(* ===================================================================== *)

(** C3, as the spec has it, fails: the measure of angle 90, distance 100
    and quality 5 is written [90.000000,100.000000,5], which holds no
    white space and so is read as one field, not three. *)
Lemma String_is_not_read_back :
  String_ (mkMeasure 90 100 5 false) = "90.000000,100.000000,5"%string
  /\ NewMeasureFromString DecimalReader.ToFloat64 DecimalReader.ToInt
       (String_ (mkMeasure 90 100 5 false)) false 0 =
     (None, Some (ErrExpectedFields 1)).
Proof. split; vm_compute; reflexivity. Qed.

(** C3, amended.  For every measure, whatever its angle, distance and
    quality, and for every setting, [String] writes the three values with
    commas between them and no white space, and [NewMeasureFromString],
    which cuts its line at white space, reads that as a single field and
    fails with the error of a line that has not three fields. *)
Theorem String_read_back_fails
    (ToFloat64 : string -> option float) (ToInt : string -> option Z)
    (m : Measure) (isUpsideDown : bool) (angleAdjustment : float) :
  GoStrings.Fields (String_ m) = [String_ m]
  /\ NewMeasureFromString ToFloat64 ToInt (String_ m)
       isUpsideDown angleAdjustment =
     (None, Some (ErrExpectedFields 1)).
Proof.
  assert (HF : GoStrings.Fields (String_ m) = [String_ m])
    by (apply Fields_plain; [apply all_plain_String | apply String_not_empty]).
  split; [exact HF|].
  unfold NewMeasureFromString. rewrite HF. reflexivity.
Qed.

(* ===================================================================== *)
(** ** The stored angle (C4) *)
(* ===================================================================== *)

(** C4 (the code departs from it).  The rotation-marker line
    [S 0.5 100 5] passes the angle validation; with the adjustment -10,
    of magnitude below 360, its angle becomes 0.5 - 360 - 10 = -369.5 and
    is stored as -9.5 after the one step of normalization.  With no
    adjustment and the sensor upside down, the rotation-marker angle 0 is
    stored as 360.  Neither lies in [0, 360). *)
Theorem rotation_marker_angle_not_normalized :
  (validateAngle 0.5 true = None
   /\ NewMeasure 0.5 100 5 true false (-10) =
      (Some (mkMeasure (-9.5) 100 5 true), None)
   /\ NewMeasureFromString DecimalReader.ToFloat64 DecimalReader.ToInt
        "S 0.5 100 5" false (-10) =
      (Some (mkMeasure (-9.5) 100 5 true), None)
   /\ normalized (-9.5) = false)
  /\ (validateAngle 0 true = None
      /\ NewMeasure 0 100 5 true true 0 =
         (Some (mkMeasure 360 100 5 true), None)
      /\ NewMeasureFromString DecimalReader.ToFloat64 DecimalReader.ToInt
           "S 0 100 5" true 0 = (Some (mkMeasure 360 100 5 true), None)
      /\ normalized 360 = false).
Proof. repeat split; vm_compute; reflexivity. Qed.

(** What follows from the angle -9.5: the handler stores the measure at
    the index [int(-9.5) % 360 = -9] and panics. *)
Lemma negative_angle_is_stored_out_of_range :
  handleStdoutLine DecimalReader.ToFloat64 DecimalReader.ToInt
    adjusted_handler "S 0.5 100 5" =
  Panics (IndexOutOfRange (-9) 360).
Proof. vm_compute. reflexivity. Qed.

(* ===================================================================== *)
(** ** Run on a running handler (C9) *)
(* ===================================================================== *)

Lemma unlock_lock_handler h :
  handlerMutex h = false -> unlock_handler (set_handlerMutex true h) = h.
Proof. destruct h. cbn. intros ->. reflexivity. Qed.

(** C9.  [Run] on a handler that is running (and whose mutex is free, so
    that the call does not wait) returns [ErrHandlerAlreadyRunning] and
    the handler as it was: the flag stays set, and the buffer, the count
    of lines read and every other field are those of the run in
    progress. *)
Theorem Run_while_running
    (ToFloat64 : string -> option float) (ToInt : string -> option Z)
    (w : World) (h : DefaultHandler) :
  isRunning h = true ->
  handlerMutex h = false ->
  Run ToFloat64 ToInt w h = Returns (h, Some ErrHandlerAlreadyRunning).
Proof.
  intros Hrun Hfree. unfold Run, lock_handler. rewrite Hfree.
  cbn [mbind outcome_bind]. unfold IsRunning.
  replace (isRunning (set_handlerMutex true h)) with (isRunning h)
    by reflexivity.
  rewrite Hrun, unlock_lock_handler by assumption. reflexivity.
Qed.

Lemma Run_while_running_witness :
  Run DecimalReader.ToFloat64 DecimalReader.ToInt quiet_world running_handler =
  Returns (running_handler, Some ErrHandlerAlreadyRunning).
Proof.
  apply (Run_while_running DecimalReader.ToFloat64 DecimalReader.ToInt
           quiet_world running_handler); reflexivity.
Defined.

(* ===================================================================== *)
(** ** Averages for all directions (C10) *)
(* ===================================================================== *)

Lemma direction_degree_bounds :
  Forall (fun d => 0 <= direction_degree d <= 338) CardinalDirections.
Proof. repeat constructor; vm_compute; discriminate. Qed.

Lemma direction_degree_bound d :
  d ∈ CardinalDirections -> 0 <= direction_degree d <= 338.
Proof.
  intros Hd. exact (proj1 (Forall_forall _ _) direction_degree_bounds d Hd).
Qed.

Lemma CardinalDirections_NoDup : NoDup CardinalDirections.
Proof.
  apply (bool_decide_unpack (NoDup CardinalDirections)). vm_compute. exact I.
Qed.

Section AllDirections.

Variable measures : Measures.
Hypothesis Hlen : length measures = 360%nat.
Variable width : Z.
Hypothesis Hwidth : valid_width width.

Let no_slot : panic := IndexOutOfRange 360 360.

(** A direction whose window ends below 360 has an average. *)
Lemma direction_returns d :
  d ∈ CardinalDirections ->
  direction_degree d + (width - 1) / 2 < 360 ->
  exists v,
    GetAverageDistanceFromDirection measures width d = Returns (v, None).
Proof using Hlen Hwidth.
  intros Hd Hin.
  pose proof (direction_degree_bound d Hd) as Hdeg.
  change (GetAverageDistanceFromDirection measures width d)
    with (GetAverageDistanceFromAngle measures (direction_degree d) width).
  destruct (Z.eq_dec width 1) as [->|Hne].
  - rewrite valid_width_passes by assumption. cbn.
    destruct (index_in_range measures Hlen (direction_degree d))
      as (slot & _ & ->); [lia|].
    destruct slot; eexists; reflexivity.
  - destruct Hwidth as [? ?].
    rewrite average_inside by (assumption || lia). eexists; reflexivity.
Qed.

(** A direction whose window reaches 360 has none. *)
Lemma direction_panics d :
  d ∈ CardinalDirections ->
  360 <= direction_degree d + (width - 1) / 2 ->
  GetAverageDistanceFromDirection measures width d = Panics no_slot.
Proof using Hlen Hwidth.
  intros Hd Hout.
  pose proof (direction_degree_bound d Hd) as Hdeg.
  change (GetAverageDistanceFromDirection measures width d)
    with (GetAverageDistanceFromAngle measures (direction_degree d) width).
  assert (1 < width).
  { destruct Hwidth as [_ ?]. destruct (Z.eq_dec width 1) as [->|]; [|lia].
    change ((1 - 1) / 2) with 0 in Hout. lia. }
  apply average_crossing; assumption || lia.
Qed.

(** The loop over directions that all have an average: the map gains
    one entry for each of them and keeps its other entries. *)
Lemma average_directions_returns directions :
  NoDup directions ->
  (forall d, d ∈ directions -> exists v,
     GetAverageDistanceFromDirection measures width d = Returns (v, None)) ->
  forall avgDistances, exists m,
    average_directions measures width directions avgDistances =
      Returns (Some m, None)
    /\ (forall d, d ∈ directions -> exists v,
          GetAverageDistanceFromDirection measures width d = Returns (v, None)
          /\ m !! d = Some v)
    /\ (forall d, d ∉ directions -> m !! d = avgDistances !! d).
Proof.
  induction 1 as [|d rest Hnotin Hnodup IH]; intros Hret avgDistances.
  - exists avgDistances. split; [reflexivity|]. split; [|reflexivity].
    intros d Hd. apply elem_of_nil in Hd. contradiction.
  - destruct (Hret d) as [v Hv]; [apply elem_of_cons; auto|].
    destruct (IH (fun d' Hd' => Hret d' (proj2 (elem_of_cons _ _ _) (or_intror Hd')))
                 (<[d := v]> avgDistances)) as (m & Hm & Hin & Hout).
    exists m. cbn [average_directions]. rewrite Hv. cbn. split; [exact Hm|].
    split.
    + intros d' [->|Hd']%elem_of_cons.
      * exists v. split; [exact Hv|].
        rewrite Hout by assumption. apply lookup_insert_eq.
      * apply Hin. assumption.
    + intros d' Hd'. rewrite not_elem_of_cons in Hd'. destruct Hd' as [Hne Hd'].
      rewrite Hout by assumption. apply lookup_insert_ne. congruence.
Qed.

(** The loop panics as soon as a direction does. *)
Lemma average_directions_panics before d after avgDistances :
  (forall d', d' ∈ before ->
     (exists v, GetAverageDistanceFromDirection measures width d' =
                Returns (v, None))
     \/ GetAverageDistanceFromDirection measures width d' = Panics no_slot) ->
  GetAverageDistanceFromDirection measures width d = Panics no_slot ->
  average_directions measures width (before ++ d :: after) avgDistances =
  Panics no_slot.
Proof.
  revert avgDistances.
  induction before as [|d' before IH]; intros avgDistances Hbefore Hd.
  - cbn. rewrite Hd. reflexivity.
  - cbn [app average_directions].
    destruct (Hbefore d') as [[v Hv]|Hv]; [apply elem_of_cons; auto| |];
      rewrite Hv; cbn; [|reflexivity].
    apply IH; [|assumption].
    intros d'' Hd''. apply Hbefore. apply elem_of_cons. auto.
Qed.

(** Each direction of the table has an average or reads the slot 360. *)
Lemma direction_returns_or_panics d :
  d ∈ CardinalDirections ->
  (exists v, GetAverageDistanceFromDirection measures width d =
             Returns (v, None))
  \/ GetAverageDistanceFromDirection measures width d = Panics no_slot.
Proof using Hlen Hwidth.
  intros Hd.
  destruct (Z_lt_le_dec (direction_degree d + (width - 1) / 2) 360).
  - left. apply direction_returns; assumption.
  - right. apply direction_panics; assumption.
Qed.

End AllDirections.

(** For a valid width up to 43 no window of a direction reaches 360: the
    map returned has the sixteen directions of the table as its keys, and
    holds for each the average of that direction. *)
Lemma all_directions_narrow (measures : Measures) width :
  length measures = 360%nat ->
  valid_width width -> width <= 43 ->
  exists m : gmap N float,
    GetAverageDistanceFromAllDirections measures width = Returns (Some m, None)
    /\ dom m = list_to_set CardinalDirections
    /\ size m = 16%nat
    /\ forall d, d ∈ CardinalDirections -> exists v,
         GetAverageDistanceFromDirection measures width d = Returns (v, None)
         /\ m !! d = Some v.
Proof.
  intros Hlen Hwidth Hnarrow.
  destruct (average_directions_returns measures width CardinalDirections
              CardinalDirections_NoDup) with (avgDistances := (∅ : gmap N float))
    as (m & Hm & Hin & Hout).
  { intros d Hd. apply direction_returns; try assumption.
    pose proof (direction_degree_bound d Hd).
    assert ((width - 1) / 2 <= 21) by (apply Z.div_le_upper_bound; lia). lia. }
  assert (Hdom : dom m = list_to_set CardinalDirections).
  { apply set_eq. intros k. rewrite elem_of_dom, elem_of_list_to_set. split.
    - intros Hsome. destruct (decide (k ∈ CardinalDirections)) as [|Hk];
        [assumption|].
      rewrite (Hout k Hk), lookup_empty in Hsome. destruct Hsome; discriminate.
    - intros Hk. destruct (Hin k Hk) as (v & _ & ->). eauto. }
  exists m. split; [exact Hm|]. split; [exact Hdom|]. split; [|exact Hin].
  rewrite <- size_dom, Hdom. reflexivity.
Qed.

(** C10 (the code departs from it; the called function is modelled from
    the spec).  For a valid width of 45 or more the window of
    north-northwest, centred at 338, reaches 360: for every handler with
    a buffer of 360 slots the call panics on the slot 360 and returns no
    map. *)
Theorem all_directions_wide_panics (h : DefaultHandler) width :
  length (measures h) = 360%nat ->
  measuresMutex h = false ->
  valid_width width -> 45 <= width ->
  direction_degree CardinalDirectionNorthNorthwest = 338
  /\ GetAverageDistancesFromAllDirections h width =
     Panics (IndexOutOfRange 360 360).
Proof.
  intros Hlen Hfree Hwidth Hwide. split; [reflexivity|].
  unfold GetAverageDistancesFromAllDirections, GetMeasures. rewrite Hfree.
  cbn [mbind outcome_bind].
  unfold GetAverageDistanceFromAllDirections,
    GetAverageDistancesFromDirections.
  change CardinalDirections with
    (take 9 CardinalDirections
     ++ CardinalDirectionNorthNorthwest :: drop 10 CardinalDirections).
  apply average_directions_panics.
  - intros d Hd. apply direction_returns_or_panics; try assumption.
    apply (subseteq_take 9 CardinalDirections). assumption.
  - apply direction_panics; try assumption.
    + unfold CardinalDirections. do 9 apply list_elem_of_further.
      apply list_elem_of_here.
    + change (direction_degree CardinalDirectionNorthNorthwest) with 338.
      assert (22 <= (width - 1) / 2) by (apply Z.div_le_lower_bound; lia). lia.
Qed.

Lemma all_directions_wide_panics_witness :
  direction_degree CardinalDirectionNorthNorthwest = 338
  /\ GetAverageDistancesFromAllDirections idle_handler 45 =
     Panics (IndexOutOfRange 360 360).
Proof. apply (all_directions_wide_panics idle_handler 45); side. Defined.

(* ===================================================================== *)
(** ** A run always ends at rest *)
(* ===================================================================== *)

Section RunEnds.

Variable ToFloat64 : string -> option float.
Variable ToInt : string -> option Z.

Lemma same_control_refl h : same_control h h.
Proof. split; reflexivity. Qed.

Lemma same_control_trans h1 h2 h3 :
  same_control h1 h2 -> same_control h2 h3 -> same_control h1 h3.
Proof. intros [? ?] [? ?]. split; congruence. Qed.

Lemma handleStdoutLine_control h line h' err :
  handleStdoutLine ToFloat64 ToInt h line = Returns (h', err) ->
  same_control h h'.
Proof.
  unfold handleStdoutLine, lock_measures, store.
  repeat (case_match; simplify_eq/=); intros; simplify_eq/=;
    split; reflexivity.
Qed.

Lemma scan_loop_control f lines scanErr :
  (forall h line h' err, f h line = Returns (h', err) -> same_control h h') ->
  forall h h' err,
    scan_loop f lines scanErr h = Returns (h', err) -> same_control h h'.
Proof.
  intros Hf. induction lines as [|[text [ctxErr|]] rest IH]; intros h h' err.
  - cbn. destruct scanErr; intros [= <- _]; apply same_control_refl.
  - cbn. intros [= <- _]. apply same_control_refl.
  - cbn [scan_loop]. destruct (f h (GoStrings.TrimSpace text)) as [[h1 e1]| |] eqn:Hstep;
      cbn; try discriminate.
    destruct e1.
    + intros [= <- _]. eapply Hf. eassumption.
    + intros Hrest. eapply same_control_trans; [eapply Hf; eassumption|].
      eapply IH. eassumption.
Qed.

Lemma runToWrap_control w h h' err :
  runToWrap ToFloat64 ToInt w h = Returns (h', err) -> same_control h h'.
Proof.
  unfold runToWrap, scanLines.
  destruct (executableMissing w); [intros [= <- _]; split; reflexivity|].
  destruct (stdoutPipeErr w); [intros [= <- _]; split; reflexivity|].
  destruct (stderrPipeErr w); [intros [= <- _]; split; reflexivity|].
  destruct (startErr w); [intros [= <- _]; split; reflexivity|].
  destruct (scan_loop _ (scanned (stdout w)) _ _) as [[h1 e1]| |] eqn:Hout;
    cbn; try discriminate.
  destruct (scan_loop _ (scanned (stderr w)) _ _) as [[h2 e2]| |] eqn:Herr;
    cbn; try discriminate.
  intros Hret.
  assert (h' = h2) as -> by (repeat case_match; congruence).
  apply scan_loop_control in Hout; [|apply handleStdoutLine_control].
  apply scan_loop_control in Herr;
    [|intros ? ? ? ? [= <- _]; apply same_control_refl].
  eapply same_control_trans; [|eassumption].
  eapply same_control_trans; [|eassumption].
  split; reflexivity.
Qed.

(** [Run] on a handler at rest whose mutex is free: whatever the
    collaborators answer, if [Run] returns then the handler is at rest
    again and its mutex is free. *)
Lemma Run_ends_at_rest w h h' err :
  isRunning h = false -> handlerMutex h = false ->
  Run ToFloat64 ToInt w h = Returns (h', err) ->
  isRunning h' = false /\ handlerMutex h' = false.
Proof.
  intros Hidle Hfree. unfold Run, lock_handler. rewrite Hfree.
  cbn [mbind outcome_bind]. unfold IsRunning.
  replace (isRunning (set_handlerMutex true h)) with (isRunning h)
    by reflexivity.
  rewrite Hidle. destruct (newProducerErr w).
  - cbn. intros [= <- _]. split; reflexivity.
  - destruct (runToWrap _ _ _ _) as [[h1 e1]| |] eqn:Hwrap; cbn;
      try discriminate.
    apply runToWrap_control in Hwrap as [Hmutex _]. cbn in Hmutex.
    unfold clear_running, lock_handler. rewrite Hmutex. cbn.
    intros [= <- _]. split; reflexivity.
Qed.

End RunEnds.

(* ===================================================================== *)
(** ** More on the averaging engine (X1 to X4) *)
(* ===================================================================== *)

(** X1.  For a buffer of 360 slots, a middle angle in [0, 360) and a
    valid width above one whose window ends below 360 (it may start below
    0 and wrap), the engine inspects the angles
    [(middleAngle + k) mod 360], [k] from [-half] to [half], in that
    order and each once, and returns with no error the sum of the
    distances of the slots that are present with a distance and a quality
    other than zero, divided by their count. *)
Theorem average_of_window_below_360 (measures : Measures) middleAngle width :
  length measures = 360%nat ->
  valid_width width -> 1 < width -> 0 <= middleAngle < 360 ->
  middleAngle + (width - 1) / 2 < 360 ->
  window_angles middleAngle width = window middleAngle width
  /\ NoDup (window middleAngle width)
  /\ GetAverageDistanceFromAngle measures middleAngle width =
     Returns
       ((total_distance measures (window middleAngle width)
         / Float64.of_int (contributing measures (window middleAngle width)))
        %float, None).
Proof.
  intros Hlen Hw Hwide Hm Hin. split; [|split].
  - apply window_angles_inside; assumption.
  - apply window_NoDup; assumption.
  - apply average_inside; assumption.
Qed.

Lemma average_of_window_below_360_witness :
  window_angles 1 5 = window 1 5
  /\ NoDup (window 1 5)
  /\ GetAverageDistanceFromAngle sample_measures 1 5 =
     Returns
       ((total_distance sample_measures (window 1 5)
         / Float64.of_int (contributing sample_measures (window 1 5)))
        %float, None).
Proof. apply (average_of_window_below_360 sample_measures 1 5); side. Defined.

Lemma returned_error_of_bind {A} (c : outcome A) (f : A -> float) v e :
  (x ← c; Returns (f x, @None error)) = Returns (v, e) -> e = None.
Proof. destruct c; cbn; intros H; try discriminate. congruence. Qed.

(** X2.  [GetAverageDistanceFromAngle] returns an error exactly when the
    width is even, below 1 or at least 360, whatever the buffer and the
    middle angle: then the value returned is 0 and the error is that of
    the first check that fails; for any other width a call that returns
    returns no error. *)
Theorem error_exactly_when_width_invalid
    (measures : Measures) (middleAngle width : Z) :
  match width_error width with
  | Some err =>
      ~ valid_width width
      /\ GetAverageDistanceFromAngle measures middleAngle width =
         Returns (0%float, Some err)
  | None =>
      valid_width width
      /\ forall v err,
           GetAverageDistanceFromAngle measures middleAngle width =
           Returns (v, err) -> err = None
  end.
Proof.
  unfold width_error, valid_width.
  destruct (Z.even width) eqn:Heven.
  { split.
    - rewrite <- Z.negb_even, Heven. intros [? _]. discriminate.
    - unfold GetAverageDistanceFromAngle. rewrite rem_2_even by assumption.
      reflexivity. }
  assert (Hodd : Z.odd width = true) by (rewrite <- Z.negb_even, Heven; reflexivity).
  unfold GetAverageDistanceFromAngle. rewrite rem_2_odd by assumption.
  destruct (Z.ltb_spec width 1); [split; [lia|reflexivity]|].
  destruct (Z.leb_spec 360 width); [split; [lia|reflexivity]|].
  split; [split; [assumption|lia]|].
  intros v err. destruct (width =? 1).
  - destruct (index measures middleAngle) as [[m|]| |]; cbn;
      intros H'; try discriminate; congruence.
  - destruct (for_range _ _ _) as [[total count]| |]; cbn;
      intros H'; try discriminate; congruence.
Qed.

(** X3.  The middle angle is not checked: with [width = 1] and a middle
    angle below 0 or from 360 on, the engine indexes the buffer of 360
    slots out of range and panics. *)
Theorem width_one_outside_buffer_panics (measures : Measures) middleAngle :
  length measures = 360%nat ->
  middleAngle < 0 \/ 360 <= middleAngle ->
  GetAverageDistanceFromAngle measures middleAngle 1 =
  Panics (IndexOutOfRange middleAngle 360).
Proof.
  intros Hlen Hout. rewrite valid_width_passes by side.
  cbn. unfold index. rewrite Hlen.
  destruct (Z.leb_spec 0 middleAngle); destruct (Z.ltb_spec middleAngle (Z.of_nat 360));
    cbn; try reflexivity; lia.
Qed.

Lemma width_one_outside_buffer_panics_witness :
  GetAverageDistanceFromAngle sample_measures 360 1 =
  Panics (IndexOutOfRange 360 360).
Proof.
  apply (width_one_outside_buffer_panics sample_measures 360); [reflexivity|lia].
Defined.

Lemma accumulate_zero_reading (measures : Measures) i m acc a :
  (distance m =? 0)%float || (quality m =? 0) = true ->
  accumulate (<[i := Some m]> measures) acc a =
  accumulate (<[i := None]> measures) acc a.
Proof.
  intros Hzero. unfold accumulate, index. rewrite !length_insert.
  destruct ((0 <=? a) && (a <? Z.of_nat (length measures))) eqn:Hin;
    [|reflexivity].
  apply andb_true_iff in Hin as [H0%Z.leb_le Hlt%Z.ltb_lt].
  destruct (decide (i = Z.to_nat a)) as [->|Hne].
  - rewrite !list_lookup_insert_eq by lia. cbn.
    unfold GetDistance, GetQuality. rewrite Hzero. reflexivity.
  - rewrite !list_lookup_insert_ne by assumption. reflexivity.
Qed.

(** X4.  For a width other than 1, a reading whose distance or quality is
    zero counts as no reading: putting it into a slot gives the same
    outcome as clearing that slot, for every buffer, middle angle and
    slot. *)
Theorem zero_reading_counts_as_absent
    (measures : Measures) (i : nat) (m : Measure) (middleAngle width : Z) :
  (distance m =? 0)%float || (quality m =? 0) = true ->
  width <> 1 ->
  GetAverageDistanceFromAngle (<[i := Some m]> measures) middleAngle width =
  GetAverageDistanceFromAngle (<[i := None]> measures) middleAngle width.
Proof.
  intros Hzero Hwidth. unfold GetAverageDistanceFromAngle.
  destruct (Z.eqb_spec width 1); [contradiction|].
  repeat (case_match; [reflexivity|]).
  f_equal.
  generalize (0%float, 0). generalize (window_angles middleAngle width) as angles.
  induction angles as [|a angles IH]; intros acc; [reflexivity|].
  cbn [for_range]. rewrite (accumulate_zero_reading measures i m acc a Hzero).
  destruct (accumulate _ acc a); cbn; auto.
Qed.

Lemma zero_reading_counts_as_absent_witness :
  GetAverageDistanceFromAngle
    (<[2%nat := Some (mkMeasure 2 70 0 false)]> sample_measures) 1 5 =
  GetAverageDistanceFromAngle (<[2%nat := None]> sample_measures) 1 5.
Proof.
  apply (zero_reading_counts_as_absent sample_measures 2
           (mkMeasure 2 70 0 false) 1 5); [reflexivity|lia].
Defined.

(* ===================================================================== *)
(** ** More on directions (X5 to X8) *)
(* ===================================================================== *)

Lemma elem_of_CardinalDirections (d : N) :
  d ∈ CardinalDirections <-> (1 <= d <= 16)%N.
Proof.
  unfold CardinalDirections. rewrite !elem_of_cons, elem_of_nil.
  unfold CardinalDirectionNorth, CardinalDirectionWest, CardinalDirectionEast,
    CardinalDirectionSouth, CardinalDirectionNorthwest,
    CardinalDirectionNortheast, CardinalDirectionSouthwest,
    CardinalDirectionSoutheast, CardinalDirectionWestNorthwest,
    CardinalDirectionNorthNorthwest, CardinalDirectionEastNortheast,
    CardinalDirectionNorthNortheast, CardinalDirectionWestSouthwest,
    CardinalDirectionEastSoutheast, CardinalDirectionSouthSouthwest,
    CardinalDirectionSouthSoutheast.
  lia.
Qed.

(** A value that is no direction of the table has no angle and no name
    in the maps. *)
Lemma unknown_direction_lookups (d : N) :
  d ∉ CardinalDirections ->
  CardinalDirectionAngles !! d = None /\ CardinalDirectionNames !! d = None.
Proof.
  rewrite elem_of_CardinalDirections. intros Hd.
  split; apply not_elem_of_list_to_map_1; cbn;
    rewrite !elem_of_cons, elem_of_nil;
    unfold CardinalDirectionNorth, CardinalDirectionWest, CardinalDirectionEast,
      CardinalDirectionSouth, CardinalDirectionNorthwest,
      CardinalDirectionNortheast, CardinalDirectionSouthwest,
      CardinalDirectionSoutheast, CardinalDirectionWestNorthwest,
      CardinalDirectionNorthNorthwest, CardinalDirectionEastNortheast,
      CardinalDirectionNorthNortheast, CardinalDirectionWestSouthwest,
      CardinalDirectionEastSoutheast, CardinalDirectionSouthSouthwest,
      CardinalDirectionSouthSoutheast; lia.
Qed.

Lemma unknown_direction_as_north (measures : Measures) width (d : N) :
  d ∉ CardinalDirections ->
  GetAverageDistanceFromDirection measures width d =
  GetAverageDistanceFromDirection measures width CardinalDirectionNorth.
Proof.
  intros Hd. unfold GetAverageDistanceFromDirection, Angle.
  rewrite (proj1 (unknown_direction_lookups d Hd)). reflexivity.
Qed.

(** X5.  A direction value outside the table, [CardinalDirectionNil]
    among them, has the angle 0 of the missing key, so its average is the
    average of north, for every buffer and width. *)
Theorem unknown_direction_averages_as_north
    (measures : Measures) (width : Z) (d : CardinalDirection) :
  d ∉ CardinalDirections ->
  Angle d = 0%float
  /\ GetAverageDistanceFromDirection measures width d =
     GetAverageDistanceFromDirection measures width CardinalDirectionNorth.
Proof.
  intros Hd. split; [|apply unknown_direction_as_north; assumption].
  unfold Angle. rewrite (proj1 (unknown_direction_lookups d Hd)). reflexivity.
Qed.

Lemma unknown_direction_averages_as_north_witness :
  Angle CardinalDirectionNil = 0%float
  /\ GetAverageDistanceFromDirection sample_measures 3 CardinalDirectionNil =
     GetAverageDistanceFromDirection sample_measures 3 CardinalDirectionNorth.
Proof.
  apply (unknown_direction_averages_as_north sample_measures 3
           CardinalDirectionNil).
  rewrite elem_of_CardinalDirections. unfold CardinalDirectionNil. lia.
Defined.

(** Up to the width 43 every direction value has an average. *)
Lemma any_direction_returns (measures : Measures) width (d : N) :
  length measures = 360%nat -> valid_width width -> width <= 43 ->
  exists v, GetAverageDistanceFromDirection measures width d = Returns (v, None).
Proof.
  intros Hlen Hwidth Hnarrow.
  assert (Hhalf : (width - 1) / 2 <= 21) by (apply Z.div_le_upper_bound; lia).
  destruct (decide (d ∈ CardinalDirections)) as [Hd|Hd].
  - apply direction_returns; try assumption.
    pose proof (direction_degree_bound d Hd). lia.
  - rewrite unknown_direction_as_north by assumption.
    apply direction_returns; try assumption.
    + apply elem_of_CardinalDirections. unfold CardinalDirectionNorth. lia.
    + change (direction_degree CardinalDirectionNorth) with 0. lia.
Qed.

(** The loop over directions that all have an average, repeated ones
    included. *)
Lemma average_directions_any (measures : Measures) width directions :
  (forall d, d ∈ directions -> exists v,
     GetAverageDistanceFromDirection measures width d = Returns (v, None)) ->
  forall avgDistances : gmap N float, exists m : gmap N float,
    average_directions measures width directions avgDistances =
      Returns (Some m, None)
    /\ (forall d, d ∈ directions -> exists v,
          GetAverageDistanceFromDirection measures width d = Returns (v, None)
          /\ m !! d = Some v)
    /\ (forall d, d ∉ directions -> m !! d = avgDistances !! d).
Proof.
  induction directions as [|d rest IH]; intros Hret avgDistances.
  - exists avgDistances. split; [reflexivity|]. split; [|reflexivity].
    intros d Hd. apply elem_of_nil in Hd. contradiction.
  - destruct (Hret d) as [v Hv]; [apply elem_of_cons; auto|].
    destruct (IH (fun d' Hd' => Hret d' (proj2 (elem_of_cons _ _ _) (or_intror Hd')))
                 (<[d := v]> avgDistances)) as (m & Hm & Hin & Hout).
    exists m. cbn [average_directions]. rewrite Hv. cbn. split; [exact Hm|].
    split.
    + intros d' [->|Hd']%elem_of_cons; [|apply Hin; assumption].
      destruct (decide (d ∈ rest)) as [Hd|Hd]; [apply Hin; assumption|].
      exists v. split; [exact Hv|].
      rewrite Hout by assumption. apply lookup_insert_eq.
    + intros d' Hd'. rewrite not_elem_of_cons in Hd'. destruct Hd' as [Hne Hd'].
      rewrite Hout by assumption. apply lookup_insert_ne. congruence.
Qed.

(** X6.  On a buffer of 360 slots and for a valid width up to 43,
    [GetAverageDistancesFromDirections] returns, for any list of direction
    values (repeated or outside the table as they may be), no error and a
    map whose keys are the values listed and which holds for each the
    average [GetAverageDistanceFromDirection] returns for it. *)
Theorem averages_for_listed_directions
    (measures : Measures) (width : Z) (directions : list CardinalDirection) :
  length measures = 360%nat ->
  valid_width width -> width <= 43 ->
  exists m : gmap N float,
    GetAverageDistancesFromDirections measures width directions =
      Returns (Some m, None)
    /\ dom m = list_to_set directions
    /\ forall d, d ∈ directions -> exists v,
         GetAverageDistanceFromDirection measures width d = Returns (v, None)
         /\ m !! d = Some v.
Proof.
  intros Hlen Hwidth Hnarrow.
  destruct (average_directions_any measures width directions)
    with (avgDistances := (∅ : gmap N float)) as (m & Hm & Hin & Hout).
  { intros d _. apply any_direction_returns; assumption. }
  exists m. split; [exact Hm|]. split; [|exact Hin].
  apply set_eq. intros k. rewrite elem_of_dom, elem_of_list_to_set. split.
  - intros Hsome. destruct (decide (k ∈ directions)) as [|Hk]; [assumption|].
    rewrite (Hout k Hk), lookup_empty in Hsome. destruct Hsome; discriminate.
  - intros Hk. destruct (Hin k Hk) as (v & _ & ->). eauto.
Qed.

Lemma averages_for_listed_directions_witness :
  exists m : gmap N float,
    GetAverageDistancesFromDirections sample_measures 3
      [CardinalDirectionNorth; CardinalDirectionEast; CardinalDirectionNil;
       CardinalDirectionNorth] = Returns (Some m, None)
    /\ dom m = list_to_set
         [CardinalDirectionNorth; CardinalDirectionEast; CardinalDirectionNil;
          CardinalDirectionNorth]
    /\ forall d,
         d ∈ [CardinalDirectionNorth; CardinalDirectionEast;
              CardinalDirectionNil; CardinalDirectionNorth] ->
         exists v,
           GetAverageDistanceFromDirection sample_measures 3 d = Returns (v, None)
           /\ m !! d = Some v.
Proof.
  apply (averages_for_listed_directions sample_measures 3
           [CardinalDirectionNorth; CardinalDirectionEast; CardinalDirectionNil;
            CardinalDirectionNorth]); side.
Defined.

Lemma width_error_returned (measures : Measures) middleAngle width err :
  width_error width = Some err ->
  GetAverageDistanceFromAngle measures middleAngle width =
  Returns (0%float, Some err).
Proof.
  unfold width_error, GetAverageDistanceFromAngle.
  destruct (Z.even width) eqn:Heven.
  - intros [= <-]. rewrite rem_2_even by assumption. reflexivity.
  - rewrite rem_2_odd by (rewrite <- Z.negb_even, Heven; reflexivity).
    destruct (width <? 1); [intros [= <-]; reflexivity|].
    destruct (360 <=? width); [intros [= <-]; reflexivity|]. discriminate.
Qed.

(** X7.  With a width that fails a check,
    [GetAverageDistancesFromDirections] returns the nil map and the error
    of that check as soon as one direction is listed, and no part of a
    map; with no direction listed the width is never looked at, and the
    empty map is returned with no error. *)
Theorem averages_with_invalid_width
    (measures : Measures) (width : Z) (directions : list CardinalDirection)
    (err : error) :
  width_error width = Some err ->
  GetAverageDistancesFromDirections measures width directions =
  Returns (match directions with
           | [] => (Some ∅, None)
           | _ :: _ => (None, Some err)
           end).
Proof.
  intros Herr. destruct directions as [|d rest]; [reflexivity|].
  unfold GetAverageDistancesFromDirections. cbn [average_directions].
  unfold GetAverageDistanceFromDirection.
  rewrite (width_error_returned _ _ _ _ Herr). reflexivity.
Qed.

Lemma averages_with_invalid_width_witness :
  GetAverageDistancesFromDirections sample_measures 4
    [CardinalDirectionSouth; CardinalDirectionWest] =
  Returns (None, Some ErrAngleWidthMustBeOdd).
Proof.
  apply (averages_with_invalid_width sample_measures 4
           [CardinalDirectionSouth; CardinalDirectionWest]
           ErrAngleWidthMustBeOdd).
  reflexivity.
Defined.

(** X8.  The three tables of directions agree: the sixteen values of
    [CardinalDirections] are distinct, they are the keys of the map of
    angles and of the map of names, no two of them share a name or an
    angle, and [CardinalDirectionNil] and every other value outside the
    list has the empty name and the angle 0. *)
Theorem direction_tables_agree :
  NoDup CardinalDirections
  /\ length CardinalDirections = 16%nat
  /\ dom CardinalDirectionAngles = list_to_set CardinalDirections
  /\ dom CardinalDirectionNames = list_to_set CardinalDirections
  /\ (forall d1 d2, d1 ∈ CardinalDirections -> d2 ∈ CardinalDirections ->
      CardinalDirection_String d1 = CardinalDirection_String d2 -> d1 = d2)
  /\ (forall d1 d2, d1 ∈ CardinalDirections -> d2 ∈ CardinalDirections ->
      Angle d1 = Angle d2 -> d1 = d2)
  /\ (forall d, d ∉ CardinalDirections ->
      CardinalDirection_String d = EmptyString /\ Angle d = 0%float).
Proof.
  split; [apply CardinalDirections_NoDup|]. split; [reflexivity|].
  split; [|split; [|split; [|split]]].
  - apply set_eq. intros d.
    rewrite elem_of_dom, elem_of_list_to_set.
    destruct (decide (d ∈ CardinalDirections)) as [Hd|Hd].
    + split; [auto|]. intros _.
      revert d Hd. apply Forall_forall. repeat constructor; vm_compute; eauto.
    + rewrite (proj1 (unknown_direction_lookups d Hd)). split; [|contradiction].
      intros [? ?]; discriminate.
  - apply set_eq. intros d.
    rewrite elem_of_dom, elem_of_list_to_set.
    destruct (decide (d ∈ CardinalDirections)) as [Hd|Hd].
    + split; [auto|]. intros _.
      revert d Hd. apply Forall_forall. repeat constructor; vm_compute; eauto.
    + rewrite (proj2 (unknown_direction_lookups d Hd)). split; [|contradiction].
      intros [? ?]; discriminate.
  - intros d1 d2 Hd1 Hd2.
    assert (Hall : Forall (fun a => Forall (fun b =>
              CardinalDirection_String a = CardinalDirection_String b -> a = b)
              CardinalDirections) CardinalDirections).
    { apply (bool_decide_unpack _). vm_compute. exact I. }
    rewrite Forall_forall in Hall. specialize (Hall d1 Hd1).
    rewrite Forall_forall in Hall. exact (Hall d2 Hd2).
  - intros d1 d2 Hd1 Hd2 Hangle.
    assert (Hall : Forall (fun a => Forall (fun b =>
              half_degrees a = half_degrees b -> a = b)
              CardinalDirections) CardinalDirections).
    { apply (bool_decide_unpack _). vm_compute. exact I. }
    rewrite Forall_forall in Hall. specialize (Hall d1 Hd1).
    rewrite Forall_forall in Hall. apply (Hall d2 Hd2).
    unfold half_degrees. rewrite Hangle. reflexivity.
  - intros d Hd. unfold CardinalDirection_String, Angle.
    destruct (unknown_direction_lookups d Hd) as [-> ->]. split; reflexivity.
Qed.

(* ===================================================================== *)
(** ** More on measures and lines (X9 to X11) *)
(* ===================================================================== *)

(** X9.  For a reading without rotation marker, on an upright sensor and
    with an adjustment equal to zero, [NewMeasure] fails exactly when the
    angle is below 0 or at least 360; otherwise it stores the angle, the
    distance and the quality as they were given: the normalization does
    not move a validated angle, and distance and quality are not checked
    at all. *)
Theorem NewMeasure_plain_reading
    (angle distance : float) (quality : Z) (angleAdjustment : float) :
  (angleAdjustment =? 0)%float = true ->
  NewMeasure angle distance quality false false angleAdjustment =
  if (angle <? 0)%float || (360 <=? angle)%float
  then (None, Some (ErrAngleWithoutSyncBit angle))
  else (Some (mkMeasure angle distance quality false), None).
Proof.
  intros Hadj. unfold NewMeasure, validateAngle. cbn [negb].
  destruct ((angle <? 0)%float) eqn:Hneg; cbn [orb]; [reflexivity|].
  destruct ((360 <=? angle)%float) eqn:Hbig; [reflexivity|].
  rewrite Hadj. cbn [negb]. rewrite Hneg, Hbig. reflexivity.
Qed.

Lemma NewMeasure_plain_reading_witness :
  NewMeasure 359.5 (-3) 0 false false (-0) =
  if (359.5 <? 0)%float || (360 <=? 359.5)%float
  then (None, Some (ErrAngleWithoutSyncBit 359.5))
  else (Some (mkMeasure 359.5 (-3) 0 false), None).
Proof. apply (NewMeasure_plain_reading 359.5 (-3) 0 (-0)). reflexivity. Defined.

Lemma flush_acc cur acc :
  GoStrings.flush cur acc = GoStrings.flush cur [] ++ acc.
Proof. destruct cur; reflexivity. Qed.

Lemma fields_from_acc s skip cur acc :
  GoStrings.fields_from s skip cur acc =
  rev acc ++ GoStrings.fields_from s skip cur [].
Proof.
  revert skip cur acc. induction s as [|c s IH]; intros skip cur acc.
  - cbn [GoStrings.fields_from]. rewrite flush_acc, rev_app_distr. reflexivity.
  - cbn [GoStrings.fields_from]. destruct skip as [|k]; [|apply IH].
    destruct (GoStrings.space_width (String c s)) as [|k]; [apply IH|].
    rewrite IH, (IH _ _ (GoStrings.flush cur [])).
    rewrite (flush_acc cur acc), rev_app_distr, app_assoc. reflexivity.
Qed.

Lemma fields_from_field a rest cur acc :
  all_plain a = true ->
  GoStrings.fields_from (a ++ String " " rest) 0 cur acc =
  GoStrings.fields_from rest 0 EmptyString (GoStrings.flush (cur ++ a) acc).
Proof.
  revert cur. induction a as [|c a IH]; intros cur Ha.
  - rewrite append_nil, append_empty_r. reflexivity.
  - cbn [all_plain] in Ha. apply andb_true_iff in Ha as [Hc Ha].
    rewrite append_cons. cbn [GoStrings.fields_from].
    rewrite (space_width_plain c _ Hc), IH by assumption.
    rewrite append_assoc. reflexivity.
Qed.

(** A field without white space, a blank and the rest of a line. *)
Lemma Fields_field a rest :
  all_plain a = true -> a <> EmptyString ->
  GoStrings.Fields (a ++ String " " rest) = a :: GoStrings.Fields rest.
Proof.
  intros Ha Hne. unfold GoStrings.Fields.
  rewrite fields_from_field, append_nil by assumption.
  rewrite fields_from_acc. destruct a; [contradiction|reflexivity].
Qed.

Lemma Fields_tool_line marker a d q :
  all_plain a = true -> a <> EmptyString ->
  all_plain d = true -> d <> EmptyString ->
  all_plain q = true -> q <> EmptyString ->
  GoStrings.Fields (tool_line marker a d q) =
  if marker then ["S"%string; a; d; q] else [a; d; q].
Proof.
  intros Ha Ha' Hd Hd' Hq Hq'.
  assert (Hbody : GoStrings.Fields (a ++ String " " (d ++ String " " q))
                  = [a; d; q]).
  { rewrite !Fields_field, Fields_plain by assumption. reflexivity. }
  unfold tool_line. destruct marker.
  - change ("S " ++ a ++ " " ++ d ++ " " ++ q)%string
      with ("S" ++ String " " (a ++ String " " (d ++ String " " q)))%string.
    rewrite Fields_field, Hbody by (reflexivity || discriminate). reflexivity.
  - exact Hbody.
Qed.

(** X10.  A line of the external tool, three fields without white space
    set apart by blanks and led by [S] at a rotation boundary, is read
    field by field: an angle, a distance or a quality that the converters
    refuse gives the error of that field, in this order, and otherwise
    the line is the measure [NewMeasure] makes of the three values, with
    the rotation marker exactly when the line is led by [S]. *)
Theorem NewMeasureFromString_tool_line
    (ToFloat64 : string -> option float) (ToInt : string -> option Z)
    (marker : bool) (fAngle fDistance fQuality : string)
    (isUpsideDown : bool) (angleAdjustment : float) :
  all_plain fAngle = true -> fAngle <> EmptyString ->
  all_plain fDistance = true -> fDistance <> EmptyString ->
  all_plain fQuality = true -> fQuality <> EmptyString ->
  NewMeasureFromString ToFloat64 ToInt
    (tool_line marker fAngle fDistance fQuality) isUpsideDown angleAdjustment =
  match ToFloat64 fAngle with
  | None => (None, Some ErrParseAngle)
  | Some angle =>
      match ToFloat64 fDistance with
      | None => (None, Some ErrParseDistance)
      | Some distance =>
          match ToInt fQuality with
          | None => (None, Some ErrParseQuality)
          | Some quality =>
              NewMeasure angle distance quality marker isUpsideDown
                angleAdjustment
          end
      end
  end.
Proof.
  intros Ha Ha' Hd Hd' Hq Hq'. unfold NewMeasureFromString.
  rewrite Fields_tool_line by assumption.
  destruct marker; reflexivity.
Qed.

Lemma NewMeasureFromString_tool_line_witness :
  NewMeasureFromString DecimalReader.ToFloat64 DecimalReader.ToInt
    (tool_line true "12.25" "100.5" "47") false 0 =
  match DecimalReader.ToFloat64 "12.25" with
  | None => (None, Some ErrParseAngle)
  | Some angle =>
      match DecimalReader.ToFloat64 "100.5" with
      | None => (None, Some ErrParseDistance)
      | Some distance =>
          match DecimalReader.ToInt "47" with
          | None => (None, Some ErrParseQuality)
          | Some quality => NewMeasure angle distance quality true false 0
          end
      end
  end.
Proof.
  apply (NewMeasureFromString_tool_line DecimalReader.ToFloat64
           DecimalReader.ToInt true "12.25" "100.5" "47" false 0);
    reflexivity || discriminate.
Defined.

(** X11.  A line that has not three fields, and is not one of four fields
    led by [S], is refused with the number of its fields, before any
    field is converted; so is a line of five fields led by [S], and a
    line of four fields led by anything else. *)
Theorem NewMeasureFromString_field_count
    (ToFloat64 : string -> option float) (ToInt : string -> option Z)
    (line : string) (isUpsideDown : bool) (angleAdjustment : float) :
  length (GoStrings.Fields line) <> 3%nat ->
  ~ (length (GoStrings.Fields line) = 4%nat
     /\ GoStrings.Fields line !! 0%nat = Some SyncBitCharacter) ->
  NewMeasureFromString ToFloat64 ToInt line isUpsideDown angleAdjustment =
  (None, Some (ErrExpectedFields (Z.of_nat (length (GoStrings.Fields line))))).
Proof.
  intros Hnot3 Hnot4. unfold NewMeasureFromString.
  destruct ((length (GoStrings.Fields line) =? 4)%nat
            && bool_decide (GoStrings.Fields line !! 0%nat
                            = Some SyncBitCharacter)) eqn:Hmark.
  - exfalso. apply Hnot4. apply andb_true_iff in Hmark as [Hlen Hhead].
    split; [apply Nat.eqb_eq, Hlen | apply bool_decide_eq_true in Hhead; exact Hhead].
  - destruct (GoStrings.Fields line) as [|a [|b [|c [|e rest]]]];
      try reflexivity. contradiction Hnot3. reflexivity.
Qed.

Lemma NewMeasureFromString_field_count_witness :
  NewMeasureFromString DecimalReader.ToFloat64 DecimalReader.ToInt
    "T 12.25 100.5 47" false 0 =
  (None, Some (ErrExpectedFields
                 (Z.of_nat (length (GoStrings.Fields "T 12.25 100.5 47"))))).
Proof.
  apply (NewMeasureFromString_field_count DecimalReader.ToFloat64
           DecimalReader.ToInt "T 12.25 100.5 47" false 0).
  - vm_compute. discriminate.
  - vm_compute. intros [_ H']. discriminate H'.
Defined.

(* ===================================================================== *)
(** ** Lines of the primary stream (X12 to X16) *)
(* ===================================================================== *)

Section StdoutLines.

Variable ToFloat64 : string -> option float.
Variable ToInt : string -> option Z.

Lemma unlock_lock_measures h ms :
  measuresMutex h = false ->
  unlock_measures (set_measures ms (set_measuresMutex true h)) =
  set_measures ms h.
Proof. destruct h. cbn. intros ->. reflexivity. Qed.

(** What a call of [handleStdoutLine] that returns leaves as it was. *)
Lemma handleStdoutLine_keeps h line h' err :
  handleStdoutLine ToFloat64 ToInt h line = Returns (h', err) ->
  err = None
  /\ stdoutLinesRead h' = GoInt.add (stdoutLinesRead h) 1
  /\ length (measures h') = length (measures h)
  /\ measuresMutex h' = measuresMutex h
  /\ same_settings h h'.
Proof.
  unfold handleStdoutLine, lock_measures, store, same_settings.
  repeat (case_match; simplify_eq/=); intros; simplify_eq/=;
    rewrite ?length_insert; repeat split; congruence.
Qed.

(** A line that is read as a measure within the limits, past the lines
    ignored. *)
Lemma handleStdoutLine_store h line m :
  6 <= stdoutLinesRead h < GoInt.max_int ->
  measuresMutex h = false ->
  length (measures h) = 360%nat ->
  NewMeasureFromString ToFloat64 ToInt line
    (isUpsideDown h) (angleAdjustment h) = (Some m, None) ->
  (distance m <? 0)%float = false ->
  (maxDistanceLimit h <? distance m)%float = false ->
  0 <= Z.rem (Float64.to_int (angle m)) 360 ->
  handleStdoutLine ToFloat64 ToInt h line =
  Returns (set_measures
             (<[Z.to_nat (Z.rem (Float64.to_int (angle m)) 360) := Some m]>
                (measures h))
             (set_stdoutLinesRead (stdoutLinesRead h + 1) h), None).
Proof.
  intros Hcount Hfree Hlen Hread Hlow Hhigh Hslot.
  unfold handleStdoutLine, GoInt.add.
  rewrite wrap_small by (unfold GoInt.min_int, GoInt.max_int in *; lia).
  cbn. destruct (Z.leb_spec (stdoutLinesRead h + 1) IgnoreFirstStdoutMessages);
    [unfold IgnoreFirstStdoutMessages in *; lia|].
  rewrite Hread. unfold GetDistance, GetAngle. rewrite Hlow, Hhigh. cbn [orb].
  unfold lock_measures. cbn. rewrite Hfree. cbn.
  unfold store, GoInt.rem. rewrite Hlen.
  pose proof (Z.rem_bound_abs (Float64.to_int (angle m)) 360 ltac:(lia)).
  destruct (Z.leb_spec 0 (Z.rem (Float64.to_int (angle m)) 360)); [|lia].
  destruct (Z.ltb_spec (Z.rem (Float64.to_int (angle m)) 360) (Z.of_nat 360));
    [|lia].
  cbn. do 2 f_equal. destruct h. cbn in *. subst. reflexivity.
Qed.

(** X12.  The first six lines of the primary stream are counted and
    otherwise ignored, whatever they hold: while fewer than six lines have
    been read, a line only raises the count by one. *)
Theorem first_lines_are_ignored (h : DefaultHandler) (line : string) :
  0 <= stdoutLinesRead h < 6 ->
  handleStdoutLine ToFloat64 ToInt h line =
  Returns (set_stdoutLinesRead (stdoutLinesRead h + 1) h, None).
Proof.
  intros Hcount. unfold handleStdoutLine, GoInt.add.
  rewrite wrap_small by (unfold GoInt.min_int, GoInt.max_int; lia).
  cbn. destruct (Z.leb_spec (stdoutLinesRead h + 1) IgnoreFirstStdoutMessages);
    [reflexivity|]. unfold IgnoreFirstStdoutMessages in *. lia.
Qed.

(** X13.  Past the six lines ignored, with the buffer's mutex free, a line
    that is read as a measure whose distance is neither below 0 nor above
    the limit, and whose angle cut to a whole degree modulo 360 is not
    negative, is put into the slot of that degree: the slot then holds
    the measure, every other slot is as before, the buffer still has 360
    slots and the count of lines is one more. *)
Theorem handleStdoutLine_stores_measure
    (h : DefaultHandler) (line : string) (m : Measure) :
  6 <= stdoutLinesRead h < GoInt.max_int ->
  measuresMutex h = false ->
  length (measures h) = 360%nat ->
  NewMeasureFromString ToFloat64 ToInt line
    (isUpsideDown h) (angleAdjustment h) = (Some m, None) ->
  (distance m <? 0)%float = false ->
  (maxDistanceLimit h <? distance m)%float = false ->
  0 <= Z.rem (Float64.to_int (angle m)) 360 ->
  exists h',
    handleStdoutLine ToFloat64 ToInt h line = Returns (h', None)
    /\ measures h' !! Z.to_nat (Z.rem (Float64.to_int (angle m)) 360)
       = Some (Some m)
    /\ (forall j, j <> Z.to_nat (Z.rem (Float64.to_int (angle m)) 360) ->
        measures h' !! j = measures h !! j)
    /\ length (measures h') = 360%nat
    /\ stdoutLinesRead h' = stdoutLinesRead h + 1.
Proof.
  intros Hcount Hfree Hlen Hread Hlow Hhigh Hslot.
  eexists. split; [apply handleStdoutLine_store; eassumption|].
  pose proof (Z.rem_bound_abs (Float64.to_int (angle m)) 360 ltac:(lia)).
  cbn. repeat split.
  - apply list_lookup_insert_eq. lia.
  - intros j Hj. apply list_lookup_insert_ne. congruence.
  - rewrite length_insert. assumption.
Qed.

(** X14.  A call of [handleStdoutLine] that returns never returns an
    error, so no line stops the scan; it raises the count of lines by one
    (wrapping as an [int]), leaves the buffer at its length, leaves the
    buffer's mutex as it found it, and writes neither the settings nor
    the running flag nor the handler's mutex. *)
Theorem handleStdoutLine_never_fails
    (h : DefaultHandler) (line : string) (h' : DefaultHandler)
    (err : option error) :
  handleStdoutLine ToFloat64 ToInt h line = Returns (h', err) ->
  err = None
  /\ stdoutLinesRead h' = GoInt.add (stdoutLinesRead h) 1
  /\ length (measures h') = length (measures h)
  /\ measuresMutex h' = measuresMutex h
  /\ same_settings h h'
  /\ isRunning h' = isRunning h
  /\ handlerMutex h' = handlerMutex h.
Proof.
  intros Hret.
  destruct (handleStdoutLine_keeps _ _ _ _ Hret) as (He & Hc & Hl & Hm & Hs).
  destruct (handleStdoutLine_control _ _ _ _ _ _ Hret) as [Hmutex Hrun].
  repeat split; try assumption.
  all: destruct Hs as (? & ? & ? & ? & ? & ?); assumption.
Qed.

(** X15.  A line that [NewMeasureFromString] refuses, and a line read as
    a measure whose distance is below 0 or above the limit, is dropped:
    the call returns no error and the handler as it was but for the count
    of lines. *)
Theorem rejected_line_is_dropped (h : DefaultHandler) (line : string) :
  (exists err, NewMeasureFromString ToFloat64 ToInt line
                 (isUpsideDown h) (angleAdjustment h) = (None, Some err))
  \/ (exists m, NewMeasureFromString ToFloat64 ToInt line
                  (isUpsideDown h) (angleAdjustment h) = (Some m, None)
                /\ (distance m <? 0)%float
                   || (maxDistanceLimit h <? distance m)%float = true) ->
  handleStdoutLine ToFloat64 ToInt h line =
  Returns (set_stdoutLinesRead (GoInt.add (stdoutLinesRead h) 1) h, None).
Proof.
  intros Hrej. unfold handleStdoutLine. cbn.
  destruct (GoInt.add (stdoutLinesRead h) 1 <=? IgnoreFirstStdoutMessages);
    [reflexivity|].
  destruct Hrej as [[err ->]|(m & -> & Hout)]; [reflexivity|].
  unfold GetDistance. rewrite Hout. reflexivity.
Qed.

(** X16.  A measure the handler has stored is what a query of width 1 at
    its degree returns: after a line is stored as in X13, the average at
    the slot's angle with width 1 is the distance of that line, with no
    error, even when the quality read is zero. *)
Theorem stored_measure_is_queried
    (h : DefaultHandler) (line : string) (m : Measure) :
  6 <= stdoutLinesRead h < GoInt.max_int ->
  measuresMutex h = false ->
  length (measures h) = 360%nat ->
  NewMeasureFromString ToFloat64 ToInt line
    (isUpsideDown h) (angleAdjustment h) = (Some m, None) ->
  (distance m <? 0)%float = false ->
  (maxDistanceLimit h <? distance m)%float = false ->
  0 <= Z.rem (Float64.to_int (angle m)) 360 ->
  exists h',
    handleStdoutLine ToFloat64 ToInt h line = Returns (h', None)
    /\ Handler_GetAverageDistanceFromAngle h'
         (Z.rem (Float64.to_int (angle m)) 360) 1 =
       Returns (distance m, None).
Proof.
  intros Hcount Hfree Hlen Hread Hlow Hhigh Hslot.
  eexists. split; [apply handleStdoutLine_store; eassumption|].
  pose proof (Z.rem_bound_abs (Float64.to_int (angle m)) 360 ltac:(lia)).
  unfold Handler_GetAverageDistanceFromAngle, GetMeasures. cbn.
  rewrite Hfree. cbn.
  rewrite valid_width_passes by side. cbn.
  unfold index. rewrite length_insert, Hlen.
  destruct (Z.leb_spec 0 (Z.rem (Float64.to_int (angle m)) 360)); [|lia].
  destruct (Z.ltb_spec (Z.rem (Float64.to_int (angle m)) 360) (Z.of_nat 360));
    [|lia].
  cbn. rewrite list_lookup_insert_eq by lia. reflexivity.
Qed.

End StdoutLines.

Lemma first_lines_are_ignored_witness :
  handleStdoutLine DecimalReader.ToFloat64 DecimalReader.ToInt
    idle_handler "12.5 100 47" =
  Returns (set_stdoutLinesRead (stdoutLinesRead idle_handler + 1) idle_handler,
           None).
Proof.
  apply (first_lines_are_ignored DecimalReader.ToFloat64 DecimalReader.ToInt
           idle_handler "12.5 100 47").
  cbn. lia.
Defined.

Lemma handleStdoutLine_stores_measure_witness :
  exists h',
    handleStdoutLine DecimalReader.ToFloat64 DecimalReader.ToInt
      reading_handler "S 0.5 200 40" = Returns (h', None)
    /\ measures h'
         !! Z.to_nat (Z.rem (Float64.to_int (angle (mkMeasure 0.5 200 40 true)))
                        360)
       = Some (Some (mkMeasure 0.5 200 40 true))
    /\ (forall j,
          j <> Z.to_nat (Z.rem (Float64.to_int
                                  (angle (mkMeasure 0.5 200 40 true))) 360) ->
          measures h' !! j = measures reading_handler !! j)
    /\ length (measures h') = 360%nat
    /\ stdoutLinesRead h' = stdoutLinesRead reading_handler + 1.
Proof.
  apply (handleStdoutLine_stores_measure DecimalReader.ToFloat64
           DecimalReader.ToInt reading_handler "S 0.5 200 40"
           (mkMeasure 0.5 200 40 true));
    first [ reflexivity | vm_compute; split; [discriminate | reflexivity]
          | vm_compute; discriminate ].
Defined.

Lemma handleStdoutLine_never_fails_witness :
  @None error = None
  /\ stdoutLinesRead (set_stdoutLinesRead 10 reading_handler) =
     GoInt.add (stdoutLinesRead reading_handler) 1
  /\ length (measures (set_stdoutLinesRead 10 reading_handler)) =
     length (measures reading_handler)
  /\ measuresMutex (set_stdoutLinesRead 10 reading_handler) =
     measuresMutex reading_handler
  /\ same_settings reading_handler (set_stdoutLinesRead 10 reading_handler)
  /\ isRunning (set_stdoutLinesRead 10 reading_handler) =
     isRunning reading_handler
  /\ handlerMutex (set_stdoutLinesRead 10 reading_handler) =
     handlerMutex reading_handler.
Proof.
  apply (handleStdoutLine_never_fails DecimalReader.ToFloat64
           DecimalReader.ToInt reading_handler "theta: 12.5"
           (set_stdoutLinesRead 10 reading_handler) None).
  vm_compute. reflexivity.
Defined.

Lemma rejected_line_is_dropped_witness :
  handleStdoutLine DecimalReader.ToFloat64 DecimalReader.ToInt
    reading_handler "12.5 20000 47" =
  Returns (set_stdoutLinesRead
             (GoInt.add (stdoutLinesRead reading_handler) 1) reading_handler,
           None).
Proof.
  apply (rejected_line_is_dropped DecimalReader.ToFloat64 DecimalReader.ToInt
           reading_handler "12.5 20000 47").
  right. exists (mkMeasure 12.5 20000 47 false).
  split; vm_compute; reflexivity.
Defined.

Lemma stored_measure_is_queried_witness :
  exists h',
    handleStdoutLine DecimalReader.ToFloat64 DecimalReader.ToInt
      reading_handler "41.75 300 0" = Returns (h', None)
    /\ Handler_GetAverageDistanceFromAngle h'
         (Z.rem (Float64.to_int (angle (mkMeasure 41.75 300 0 false))) 360) 1 =
       Returns (distance (mkMeasure 41.75 300 0 false), None).
Proof.
  apply (stored_measure_is_queried DecimalReader.ToFloat64 DecimalReader.ToInt
           reading_handler "41.75 300 0" (mkMeasure 41.75 300 0 false));
    first [ reflexivity | vm_compute; split; [discriminate | reflexivity]
          | vm_compute; discriminate ].
Defined.

(* ===================================================================== *)
(** ** Runs (X17 to X21) *)
(* ===================================================================== *)

Lemma same_settings_refl h : same_settings h h.
Proof. repeat split. Qed.

Lemma same_settings_trans h1 h2 h3 :
  same_settings h1 h2 -> same_settings h2 h3 -> same_settings h1 h3.
Proof.
  unfold same_settings. intros (? & ? & ? & ? & ? & ?) (? & ? & ? & ? & ? & ?).
  repeat split; congruence.
Qed.

Section Runs.

Variable ToFloat64 : string -> option float.
Variable ToInt : string -> option Z.

(** What every line handler keeps, the scan keeps. *)
Lemma scan_loop_preserves (R : DefaultHandler -> DefaultHandler -> Prop) f
    lines scanErr :
  (forall h, R h h) ->
  (forall h1 h2 h3, R h1 h2 -> R h2 h3 -> R h1 h3) ->
  (forall h line h' err, f h line = Returns (h', err) -> R h h') ->
  forall h h' err,
    scan_loop f lines scanErr h = Returns (h', err) -> R h h'.
Proof.
  intros Hrefl Htrans Hf.
  induction lines as [|[text [ctxErr|]] rest IH]; intros h h' err.
  - cbn. destruct scanErr; intros [= <- _]; apply Hrefl.
  - cbn. intros [= <- _]. apply Hrefl.
  - cbn [scan_loop].
    destruct (f h (GoStrings.TrimSpace text)) as [[h1 e1]| |] eqn:Hstep;
      cbn; try discriminate.
    destruct e1.
    + intros [= <- _]. eapply Hf. eassumption.
    + intros Hrest. eapply Htrans; [eapply Hf; eassumption|].
      eapply IH. eassumption.
Qed.

Lemma kept_refl h : kept h h.
Proof. repeat split. Qed.

Lemma kept_trans h1 h2 h3 : kept h1 h2 -> kept h2 h3 -> kept h1 h3.
Proof.
  intros (? & ? & ? & ?) (? & ? & ? & ?). repeat split; try congruence.
  all: eapply same_settings_trans; eassumption.
Qed.

Lemma handleStdoutLine_kept h line h' err :
  handleStdoutLine ToFloat64 ToInt h line = Returns (h', err) -> kept h h'.
Proof.
  unfold handleStdoutLine, lock_measures, store, kept, same_settings.
  repeat (case_match; simplify_eq/=); intros; simplify_eq/=;
    rewrite ?length_insert; repeat split; congruence.
Qed.

Lemma scan_stderr_same lines scanErr h h' err :
  scan_loop handleStderrLine lines scanErr h = Returns (h', err) -> h' = h.
Proof.
  apply (scan_loop_preserves (fun a b => b = a)); try congruence.
  intros ? ? ? ? [= <- _]. reflexivity.
Qed.

Lemma runToWrap_kept w h h' err :
  runToWrap ToFloat64 ToInt w h = Returns (h', err) ->
  length (measures h') = 360%nat
  /\ handlerLoggerProducer h' = handlerLoggerProducer h
  /\ same_settings h h'.
Proof.
  unfold runToWrap, scanLines.
  destruct (executableMissing w);
    [intros [= <- _]; repeat split; apply length_replicate|].
  destruct (stdoutPipeErr w);
    [intros [= <- _]; repeat split; apply length_replicate|].
  destruct (stderrPipeErr w);
    [intros [= <- _]; repeat split; apply length_replicate|].
  destruct (startErr w);
    [intros [= <- _]; repeat split; apply length_replicate|].
  destruct (scan_loop _ (scanned (stdout w)) _ _) as [[h1 e1]| |] eqn:Hout;
    cbn; try discriminate.
  destruct (scan_loop _ (scanned (stderr w)) _ _) as [[h2 e2]| |] eqn:Herr;
    cbn; try discriminate.
  intros Hret.
  assert (h' = h2) as -> by (repeat case_match; congruence).
  apply scan_stderr_same in Herr as ->.
  apply (scan_loop_preserves kept) in Hout;
    [|apply kept_refl|apply kept_trans|apply handleStdoutLine_kept].
  destruct Hout as (Hlen & _ & Hprod & Hset).
  match type of Hlen with
  | ?l = _ => change (l = length (replicate 360 (@None Measure))) in Hlen
  end.
  rewrite length_replicate in Hlen. split; [exact Hlen|].
  split; [exact Hprod|]. exact Hset.
Qed.

(** The scan of lines that never find the context done counts them all. *)
Lemma scan_loop_counts lines scanErr h h' err :
  Forall (fun l : string * option error => l.2 = None) lines ->
  0 <= stdoutLinesRead h ->
  stdoutLinesRead h + Z.of_nat (length lines) <= GoInt.max_int ->
  scan_loop (handleStdoutLine ToFloat64 ToInt) lines scanErr h =
    Returns (h', err) ->
  stdoutLinesRead h' = stdoutLinesRead h + Z.of_nat (length lines).
Proof.
  intros Hall. revert h.
  induction Hall as [|[text ctx] rest Hline _ IH]; intros h Hpos Hmax.
  - cbn. destruct scanErr; intros [= <- _]; lia.
  - cbn in Hline. subst ctx. cbn [scan_loop length] in *.
    destruct (handleStdoutLine _ _ h _) as [[h1 e1]| |] eqn:Hstep;
      cbn; try discriminate.
    destruct (handleStdoutLine_keeps _ _ _ _ _ _ Hstep) as (-> & Hcount & _).
    unfold GoInt.add in Hcount.
    rewrite wrap_small in Hcount
      by (unfold GoInt.min_int, GoInt.max_int in *; lia).
    intros Hrest. apply IH in Hrest; lia.
Qed.

(** X17.  [Run] on a handler at rest whose mutex is free, whatever the
    collaborators answer and whichever lines arrive: if it returns, with
    an error or without, the handler is at rest again with its mutex
    free, its settings are as they were, and, unless the logger refused a
    producer, its buffer has 360 slots. *)
Theorem Run_returns_handler_at_rest
    (w : World) (h h' : DefaultHandler) (err : option error) :
  isRunning h = false -> handlerMutex h = false ->
  Run ToFloat64 ToInt w h = Returns (h', err) ->
  isRunning h' = false /\ handlerMutex h' = false
  /\ same_settings h h'
  /\ (newProducerErr w = None -> length (measures h') = 360%nat).
Proof.
  intros Hidle Hfree. unfold Run, lock_handler. rewrite Hfree.
  cbn [mbind outcome_bind]. unfold IsRunning.
  replace (isRunning (set_handlerMutex true h)) with (isRunning h)
    by reflexivity.
  rewrite Hidle. destruct (newProducerErr w).
  - cbn. intros [= <- _]. repeat split. discriminate.
  - destruct (runToWrap _ _ _ _) as [[h1 e1]| |] eqn:Hwrap; cbn;
      try discriminate.
    pose proof (runToWrap_control _ _ _ _ _ _ Hwrap) as [Hmutex _].
    apply runToWrap_kept in Hwrap as (Hlen & _ & Hset). cbn in Hmutex.
    unfold clear_running, lock_handler. rewrite Hmutex. cbn.
    intros [= <- _]. split; [reflexivity|]. split; [reflexivity|].
    split; [|intros _; exact Hlen].
    destruct Hset as (? & ? & ? & ? & ? & ?). repeat split; assumption.
Qed.

(** X18.  When the logger hands out no producer, [Run] on a handler at
    rest returns that error wrapped and the handler exactly as it was:
    the buffer and the count of lines of an earlier run are not reset. *)
Theorem Run_without_producer_changes_nothing
    (w : World) (h : DefaultHandler) (cause : error) :
  isRunning h = false -> handlerMutex h = false ->
  newProducerErr w = Some cause ->
  Run ToFloat64 ToInt w h =
  Returns (h, Some (ErrWrap "failed to create handler logger producer" cause)).
Proof.
  intros Hidle Hfree Hprod. unfold Run, lock_handler. rewrite Hfree.
  cbn [mbind outcome_bind]. unfold IsRunning.
  replace (isRunning (set_handlerMutex true h)) with (isRunning h)
    by reflexivity.
  rewrite Hidle, Hprod. cbn. do 2 f_equal.
  destruct h. cbn in *. subst. reflexivity.
Qed.

(** X19.  When the executable is missing, [Run] on a handler at rest
    returns the error naming the path and launches nothing, but the
    buffer and the count of lines are reset all the same: the reset comes
    before the check. *)
Theorem Run_without_executable_resets_buffer (w : World) (h : DefaultHandler) :
  isRunning h = false -> handlerMutex h = false ->
  newProducerErr w = None -> executableMissing w = true ->
  Run ToFloat64 ToInt w h =
  Returns (set_stdoutLinesRead 0
             (set_measures (replicate 360 None)
                (set_handlerLoggerProducer (Some HandlerLoggerProducerTag) h)),
           Some (ErrExecutableNotFound (ultraSimplePath h))).
Proof.
  intros Hidle Hfree Hprod Hmiss. unfold Run, lock_handler. rewrite Hfree.
  cbn [mbind outcome_bind]. unfold IsRunning.
  replace (isRunning (set_handlerMutex true h)) with (isRunning h)
    by reflexivity.
  rewrite Hidle, Hprod. unfold runToWrap. rewrite Hmiss. cbn.
  do 2 f_equal. destruct h. cbn in *. subst. reflexivity.
Qed.

(** X20.  When both readers find the context cancelled at their first
    line and the pipes close cleanly, [Run] returns no error at all: a
    cancellation is not handed on to the caller.  No line is handled, and
    the buffer is the empty one of the reset.  (The logger's wrappers
    around the readers and around [runToWrap] are taken to hand an error
    on as it is, as throughout [runToWrap] and [Run].) *)
Theorem Run_cancelled_returns_no_error
    (w : World) (h : DefaultHandler)
    (text1 text2 : string) (ctxErr : error)
    (rest1 rest2 : list (string * option error)) :
  isRunning h = false -> handlerMutex h = false ->
  newProducerErr w = None -> executableMissing w = false ->
  stdoutPipeErr w = None -> stderrPipeErr w = None -> startErr w = None ->
  is_canceled ctxErr = true ->
  scanned (stdout w) = (text1, Some ctxErr) :: rest1 ->
  scanned (stderr w) = (text2, Some ctxErr) :: rest2 ->
  stdoutCloseErr w = None -> stderrCloseErr w = None ->
  Run ToFloat64 ToInt w h =
  Returns (set_stdoutLinesRead 0
             (set_measures (replicate 360 None)
                (set_handlerLoggerProducer (Some HandlerLoggerProducerTag) h)),
           None).
Proof.
  intros Hidle Hfree Hprod Hexe Hp1 Hp2 Hstart Hcancel Hout Herr Hc1 Hc2.
  unfold Run, lock_handler. rewrite Hfree.
  cbn [mbind outcome_bind]. unfold IsRunning.
  replace (isRunning (set_handlerMutex true h)) with (isRunning h)
    by reflexivity.
  rewrite Hidle, Hprod. unfold runToWrap, scanLines.
  rewrite Hexe, Hp1, Hp2, Hstart, Hout, Herr. cbn.
  destruct (stderrFailsFirst w); rewrite Hcancel; cbn;
    rewrite Hc1, Hc2; cbn; do 2 f_equal;
    destruct h; cbn in *; subst; reflexivity.
Qed.

(** X21.  In a run that starts the tool and whose primary stream never
    finds the context done, the count of lines the handler keeps is, when
    [Run] returns, the number of lines the stream yielded. *)
Theorem Run_counts_every_line
    (w : World) (h h' : DefaultHandler) (err : option error) :
  isRunning h = false -> handlerMutex h = false ->
  newProducerErr w = None -> executableMissing w = false ->
  stdoutPipeErr w = None -> stderrPipeErr w = None -> startErr w = None ->
  uncancelled (stdout w) ->
  Z.of_nat (length (scanned (stdout w))) <= GoInt.max_int ->
  Run ToFloat64 ToInt w h = Returns (h', err) ->
  stdoutLinesRead h' = Z.of_nat (length (scanned (stdout w))).
Proof.
  intros Hidle Hfree Hprod Hexe Hp1 Hp2 Hstart Hlines Hmax.
  unfold Run, lock_handler. rewrite Hfree.
  cbn [mbind outcome_bind]. unfold IsRunning.
  replace (isRunning (set_handlerMutex true h)) with (isRunning h)
    by reflexivity.
  rewrite Hidle, Hprod.
  destruct (runToWrap _ _ _ _) as [[h1 e1]| |] eqn:Hwrap; cbn;
    try discriminate.
  pose proof (runToWrap_control _ _ _ _ _ _ Hwrap) as [Hmutex _].
  cbn in Hmutex. unfold clear_running, lock_handler. rewrite Hmutex. cbn.
  intros [= <- _]. cbn.
  revert Hwrap. unfold runToWrap, scanLines. rewrite Hexe, Hp1, Hp2, Hstart.
  destruct (scan_loop _ (scanned (stdout w)) _ _) as [[h2 e2]| |] eqn:Hout;
    cbn; try discriminate.
  destruct (scan_loop _ (scanned (stderr w)) _ _) as [[h3 e3]| |] eqn:Herr;
    cbn; try discriminate.
  intros Hret.
  assert (h1 = h3) as -> by (repeat case_match; congruence).
  apply scan_stderr_same in Herr as ->.
  apply scan_loop_counts in Hout; cbn in *; try assumption; lia.
Qed.

End Runs.

Lemma Run_returns_handler_at_rest_witness :
  isRunning after_eight_lines = false
  /\ handlerMutex after_eight_lines = false
  /\ same_settings idle_handler after_eight_lines
  /\ (newProducerErr world_of_eight_lines = None ->
      length (measures after_eight_lines) = 360%nat).
Proof.
  apply (Run_returns_handler_at_rest DecimalReader.ToFloat64
           DecimalReader.ToInt world_of_eight_lines idle_handler
           after_eight_lines None); vm_compute; reflexivity.
Defined.

Lemma Run_without_producer_changes_nothing_witness :
  Run DecimalReader.ToFloat64 DecimalReader.ToInt world_without_producer
    rested_handler =
  Returns (rested_handler,
           Some (ErrWrap "failed to create handler logger producer"
                   (ErrExternal "logger is closed"))).
Proof.
  apply (Run_without_producer_changes_nothing DecimalReader.ToFloat64
           DecimalReader.ToInt world_without_producer rested_handler
           (ErrExternal "logger is closed")); reflexivity.
Defined.

Lemma Run_without_executable_resets_buffer_witness :
  Run DecimalReader.ToFloat64 DecimalReader.ToInt world_without_executable
    rested_handler =
  Returns (set_stdoutLinesRead 0
             (set_measures (replicate 360 None)
                (set_handlerLoggerProducer (Some HandlerLoggerProducerTag)
                   rested_handler)),
           Some (ErrExecutableNotFound (ultraSimplePath rested_handler))).
Proof.
  apply (Run_without_executable_resets_buffer DecimalReader.ToFloat64
           DecimalReader.ToInt world_without_executable rested_handler);
    reflexivity.
Defined.

Lemma Run_cancelled_returns_no_error_witness :
  Run DecimalReader.ToFloat64 DecimalReader.ToInt world_cancelled
    rested_handler =
  Returns (set_stdoutLinesRead 0
             (set_measures (replicate 360 None)
                (set_handlerLoggerProducer (Some HandlerLoggerProducerTag)
                   rested_handler)),
           None).
Proof.
  apply (Run_cancelled_returns_no_error DecimalReader.ToFloat64
           DecimalReader.ToInt world_cancelled rested_handler
           "12.5 100 47" "warning" ErrContextCanceled [] []); reflexivity.
Defined.

Lemma Run_counts_every_line_witness :
  stdoutLinesRead after_eight_lines =
  Z.of_nat (length (scanned (stdout world_of_eight_lines))).
Proof.
  apply (Run_counts_every_line DecimalReader.ToFloat64 DecimalReader.ToInt
           world_of_eight_lines idle_handler after_eight_lines None);
    first [ reflexivity
          | vm_compute; discriminate
          | vm_compute; reflexivity
          | unfold uncancelled; cbn; repeat constructor ].
Defined.

(* ===================================================================== *)
(** ** Building a handler (X22) *)
(* ===================================================================== *)

Lemma trim_left_blank s : all_blank s = true -> GoStrings.trim_left s 0 = EmptyString.
Proof.
  induction s as [|c s IH]; [reflexivity|].
  cbn [all_blank]. intros [Hc Hs]%andb_true_iff.
  cbn [GoStrings.trim_left GoStrings.space_width]. rewrite Hc. auto.
Qed.

Lemma TrimSpace_blank s : all_blank s = true -> GoStrings.TrimSpace s = EmptyString.
Proof. intros Hs. unfold GoStrings.TrimSpace. rewrite trim_left_blank by assumption. reflexivity. Qed.

(** A handler whose buffer holds no reading answers a query of width 1
    with 0.0. *)
Lemma empty_buffer_query h a :
  measuresMutex h = false -> measures h = replicate 360 None ->
  0 <= a < 360 ->
  Handler_GetAverageDistanceFromAngle h a 1 = Returns (0%float, None).
Proof.
  intros Hfree Hbuf Ha.
  destruct (index_in_range (replicate 360 (@None Measure))
              (length_replicate _ _) a Ha) as (slot & Hslot & Hidx).
  rewrite lookup_replicate_2 in Hslot by lia. injection Hslot as <-.
  unfold Handler_GetAverageDistanceFromAngle, GetMeasures.
  rewrite Hfree, Hbuf. cbn [mbind outcome_bind].
  rewrite valid_width_passes by side.
  change (1 =? 1) with true. cbv iota. rewrite Hidx. reflexivity.
Qed.

(** X22.  [NewDefaultHandler] checks the logger, then the path, then the
    limit: a nil logger is refused first, next a path that is empty or of
    white space only, next a limit that is zero or below.  A handler it
    returns is at rest with both mutexes free, has read no line, keeps
    the settings it was given, and holds a buffer of 360 absent readings,
    so that a query of width 1 at any degree returns 0.0 and no error;
    [NewSlamtecC1Handler] is the same with the baud rate 460800. *)
Theorem NewDefaultHandler_checks_and_fresh_handler
    (baudRate : Z) (port : string) (isUpsideDown : bool)
    (angleAdjustment : float) (loggerIsNil : bool) (ultraSimplePath : string)
    (maxDistanceLimit : float) :
  let made := NewDefaultHandler baudRate port isUpsideDown angleAdjustment
                loggerIsNil ultraSimplePath maxDistanceLimit in
  (loggerIsNil = true -> made = (None, Some ErrNilLogger))
  /\ (loggerIsNil = false -> all_blank ultraSimplePath = true ->
      made = (None, Some ErrEmptyUltraSimplePath))
  /\ (loggerIsNil = false ->
      GoStrings.TrimSpace ultraSimplePath <> EmptyString ->
      (maxDistanceLimit <=? 0)%float = true ->
      made = (None, Some ErrInvalidMaxDistanceLimit))
  /\ (forall h, made = (Some h, None) ->
      loggerIsNil = false
      /\ GoStrings.TrimSpace ultraSimplePath <> EmptyString
      /\ (maxDistanceLimit <=? 0)%float = false
      /\ h = mkHandler false false false None baudRate isUpsideDown
               angleAdjustment (replicate 360 None) 0 ultraSimplePath
               maxDistanceLimit port
      /\ (forall a, 0 <= a < 360 ->
          Handler_GetAverageDistanceFromAngle h a 1 = Returns (0%float, None)))
  /\ NewSlamtecC1Handler port isUpsideDown angleAdjustment loggerIsNil
       ultraSimplePath maxDistanceLimit =
     NewDefaultHandler 460800 port isUpsideDown angleAdjustment loggerIsNil
       ultraSimplePath maxDistanceLimit.
Proof.
  cbv zeta. unfold NewDefaultHandler. repeat split.
  - intros ->. reflexivity.
  - intros -> Hblank. rewrite TrimSpace_blank by assumption. reflexivity.
  - intros -> Hpath Hlimit. rewrite bool_decide_eq_false_2 by assumption.
    rewrite Hlimit. reflexivity.
  - destruct loggerIsNil; [discriminate|reflexivity].
  - destruct loggerIsNil; [discriminate|].
    destruct (bool_decide _) eqn:Hdec; [discriminate|].
    apply bool_decide_eq_false in Hdec. assumption.
  - destruct loggerIsNil; [discriminate|].
    destruct (bool_decide _); [discriminate|].
    destruct (maxDistanceLimit <=? 0)%float; [discriminate|reflexivity].
  - destruct loggerIsNil; [discriminate|].
    destruct (bool_decide _); [discriminate|].
    destruct (maxDistanceLimit <=? 0)%float; [discriminate|]. congruence.
  - intros a Ha.
    destruct loggerIsNil; [discriminate|].
    destruct (bool_decide _); [discriminate|].
    destruct (maxDistanceLimit <=? 0)%float; [discriminate|].
    match goal with H : (Some _, None) = (Some h, None) |- _ =>
      injection H as <- end.
    apply empty_buffer_query; [reflexivity|reflexivity|assumption].
Qed.

(* ===================================================================== *)
(** ** A measure with a negative angle (X23) *)
(* ===================================================================== *)

(** X23.  The slot of a measure is [int(angle) % 360], which is negative
    for an angle of -1 or below: past the six lines ignored, a line read
    as a measure within the distance limits whose angle cut to a whole
    degree has a negative remainder modulo 360 makes the handler index
    its buffer of 360 slots below 0 and panic. *)
Theorem handleStdoutLine_negative_slot_panics
    (ToFloat64 : string -> option float) (ToInt : string -> option Z)
    (h : DefaultHandler) (line : string) (m : Measure) :
  6 <= stdoutLinesRead h < GoInt.max_int ->
  measuresMutex h = false ->
  length (measures h) = 360%nat ->
  NewMeasureFromString ToFloat64 ToInt line
    (isUpsideDown h) (angleAdjustment h) = (Some m, None) ->
  (distance m <? 0)%float = false ->
  (maxDistanceLimit h <? distance m)%float = false ->
  Z.rem (Float64.to_int (angle m)) 360 < 0 ->
  handleStdoutLine ToFloat64 ToInt h line =
  Panics (IndexOutOfRange (Z.rem (Float64.to_int (angle m)) 360) 360).
Proof.
  intros Hcount Hfree Hlen Hread Hlow Hhigh Hslot.
  unfold handleStdoutLine, GoInt.add.
  rewrite wrap_small by (unfold GoInt.min_int, GoInt.max_int in *; lia).
  cbn. destruct (Z.leb_spec (stdoutLinesRead h + 1) IgnoreFirstStdoutMessages);
    [unfold IgnoreFirstStdoutMessages in *; lia|].
  rewrite Hread. unfold GetDistance, GetAngle. rewrite Hlow, Hhigh. cbn [orb].
  unfold lock_measures. cbn. rewrite Hfree. cbn.
  unfold store, GoInt.rem. rewrite Hlen.
  destruct (Z.leb_spec 0 (Z.rem (Float64.to_int (angle m)) 360)); [lia|].
  reflexivity.
Qed.

Lemma handleStdoutLine_negative_slot_panics_witness :
  handleStdoutLine DecimalReader.ToFloat64 DecimalReader.ToInt
    adjusted_handler "S 0.5 100 5" =
  Panics (IndexOutOfRange
            (Z.rem (Float64.to_int (angle (mkMeasure (-9.5) 100 5 true))) 360)
            360).
Proof.
  apply (handleStdoutLine_negative_slot_panics DecimalReader.ToFloat64
           DecimalReader.ToInt adjusted_handler "S 0.5 100 5"
           (mkMeasure (-9.5) 100 5 true));
    first [ reflexivity | vm_compute; split; [discriminate | reflexivity]
          | vm_compute; reflexivity ].
Defined.
